(** * Braking-distance demo (script.js): run-state logic

    A shallow embedding of the behavioural script that sits on top of the
    physics backend: the world reset, the start handler, the per-tick
    braking controller, the collision handler and the finalization of a
    run, together with the part of the page they write to (result overlay,
    start button, history table).

    Numbers.  A JavaScript Number is modelled by an exact rational [Q]: the
    comparisons of the script are exact on finite doubles, the decimal
    literals are taken at their decimal value and sums and products are
    taken without rounding; NaN and the infinities are outside the model.
    The division by [SCALE], the conversion of the braking distance from
    pixels to metres, is rounded to the nearest double, because [toFixed]
    prints the exact value of the double it is given (the other division
    of the script, the halving of the ground width, is exact on doubles).

    Backend.  The physics engine is a black box.  Its integration step is
    an event that may give the car any position and velocity; the only
    backend commands the script issues ([Body.setVelocity],
    [Body.applyForce], [Render.lookAt], [Composite.add]) are modelled by
    what they store. *)

From Stdlib Require Import QArith Qabs Qround Qpower Lqa ZArith Lia Bool List String Ascii.
From Stdlib Require DecimalString DecimalPos DecimalN.
Import ListNotations.

Open Scope Q_scope.

(** ** Numbers *)

(** [a < b] on Numbers, as a boolean. *)
Definition Qlt_bool (a b : Q) : bool := negb (Qle_bool b a).

(** [Math.max(a, b)] on finite Numbers. *)
Definition Math_max (a b : Q) : Q := if Qlt_bool a b then b else a.

(** [Math.abs]. *)
Definition Math_abs (a : Q) : Q := Qabs a.

(** Powers of two, with any integer exponent. *)
Definition pow2 (e : Z) : Q := 2 ^ e.

(** The nearest integer, the even one on a tie. *)
Definition round_half_even (a : Q) : Z :=
  let f := Qfloor a in
  let r := a - inject_Z f in
  if Qlt_bool r (1 # 2) then f
  else if Qlt_bool (1 # 2) r then (f + 1)%Z
  else if Z.even f then f else (f + 1)%Z.

(** For a positive [x], the exponent [e] with 2^52 <= x / 2^e < 2^53, from
    the binary logarithms of numerator and denominator. *)
Definition binary64_exponent (x : Q) : Z :=
  let l := (Z.log2 (Qnum x) - Z.log2 (Zpos (Qden x)))%Z in
  if Qle_bool (pow2 l) x then (l - 52)%Z else (l - 53)%Z.

Definition round_positive (x : Q) : Q :=
  let e := binary64_exponent x in
  inject_Z (round_half_even (x / pow2 e)) * pow2 e.

(** The double nearest to [x], the one with the even mantissa on a tie:
    53 bits of mantissa, the exponent not bounded (the subnormal numbers
    and the overflow to infinity are outside the model). *)
Definition round_binary64 (x : Q) : Q :=
  if Qlt_bool 0 x then round_positive x
  else if Qlt_bool x 0 then - round_positive (- x)
  else 0.

(** [a / b] on Numbers. *)
Definition Number_div (a b : Q) : Q := round_binary64 (a / b).

(** The integer [n] for which [n - x] is as close to zero as possible, the
    larger one when there are two (step 8 of Number.prototype.toFixed). *)
Definition nearest_integer (x : Q) : Z := Qfloor (x + (1 # 2)).

Definition digits (n : Z) : string :=
  DecimalString.NilZero.string_of_uint (N.to_uint (Z.to_N n)).

(** The text of [n] tenths: the decimal digits of [n], padded to two
    characters, with the point before the last one. *)
Definition fixed1_of_tenths (n : Z) : string :=
  let m := digits n in
  let m := if (String.length m <=? 1)%nat then ("0" ++ m)%string else m in
  let k := String.length m in
  (substring 0 (k - 1) m ++ "." ++ substring (k - 1) 1 m)%string.

(** Reading a one-decimal text back: the text is split at its point, which
    must leave exactly one character after it, and the digits on both
    sides, read as one decimal numeral, are the number of tenths. *)
Fixpoint split_point (s : string) : option (string * string) :=
  match s with
  | EmptyString => None
  | String c s' =>
      if Ascii.eqb c "." then Some (EmptyString, s')
      else match split_point s' with
           | Some (a, b) => Some (String c a, b)
           | None => None
           end
  end.

Definition tenths_of_fixed1 (s : string) : option Z :=
  match split_point s with
  | Some (a, b) =>
      if (String.length b =? 1)%nat then
        match DecimalString.NilEmpty.uint_of_string (a ++ b) with
        | Some d => Some (Z.of_N (N.of_uint d))
        | None => None
        end
      else None
  | None => None
  end.

Fixpoint no_point (s : string) : bool :=
  match s with
  | EmptyString => true
  | String c s' => negb (Ascii.eqb c ".") && no_point s'
  end.

(** [x.toFixed(1)], for [x] below 10^21 in magnitude (beyond that the
    method switches to exponent notation; no position of the scene is
    anywhere near). *)
Definition toFixed1 (x : Q) : string :=
  let s := if Qlt_bool x 0 then "-"%string else ""%string in
  let x := if Qlt_bool x 0 then - x else x in
  (s ++ fixed1_of_tenths (nearest_integer (x * 10)))%string.

(** ** Constants and tables *)

Definition SCALE : Q := 10.
Definition CAR_MASS : Q := 1000.
Definition BRAKE_LINE_X : Q := 150.

Inductive Speed := kmh30 | kmh60 | kmh100.
Inductive Weather := sunny | rainy | icy.

Definition SPEED_MAP (s : Speed) : Q :=
  match s with kmh30 => 8 | kmh60 => 15 | kmh100 => 22 end.

Definition FRICTION_MAP (w : Weather) : Q :=
  match w with sunny => 8 # 10 | rainy => 4 # 10 | icy => 5 # 100 end.

Definition BRAKING_FORCE_MAP (w : Weather) : Q :=
  match w with sunny => 15 # 100 | rainy => 8 # 100 | icy => 2 # 100 end.

(** ** Backend data *)

Module Vector.
Record t := mk { x : Q; y : Q }.
Definition zero : t := mk 0 0.
Definition add (a b : t) : t := mk (x a + x b) (y a + y b).
End Vector.

(** The car, the only dynamic body. *)
Record Body := mkBody {
  label : string;
  position : Vector.t;
  velocity : Vector.t;
  force : Vector.t;
  mass : Q;
  friction : Q;
  frictionAir : Q
}.

Definition with_velocity (v : Vector.t) (b : Body) : Body :=
  mkBody (label b) (position b) v (force b) (mass b) (friction b) (frictionAir b).
Definition with_force (f : Vector.t) (b : Body) : Body :=
  mkBody (label b) (position b) (velocity b) f (mass b) (friction b) (frictionAir b).
Definition with_friction (fr fa : Q) (b : Body) : Body :=
  mkBody (label b) (position b) (velocity b) (force b) (mass b) fr fa.

(** A static body of the scene; [sfriction] is the friction option the
    script passes, [None] where it leaves the backend's default. *)
Record StaticBody := mkStatic {
  slabel : string;
  sposition : Vector.t;
  sfriction : option Q;
  sisSensor : bool
}.

(** [Body.setVelocity(body, v)]. *)
Definition Body_setVelocity (v : Vector.t) (b : Body) : Body := with_velocity v b.

(** [Body.applyForce(body, body.position, f)]: the force is added to the
    body's accumulator; applied at the body's own position it adds no torque. *)
Definition Body_applyForce (f : Vector.t) (b : Body) : Body :=
  with_force (Vector.add (force b) f) b.

Record Bounds := mkBounds { bmin : Vector.t; bmax : Vector.t }.

Record Render := mkRender {
  canvas_width : Q;
  canvas_height : Q;
  options_width : Q;
  options_height : Q;
  bounds : Bounds
}.

(** [Render.lookAt(render, b)], kept as the region that was asked for. *)
Definition Render_lookAt (b : Bounds) (r : Render) : Render :=
  mkRender (canvas_width r) (canvas_height r) (options_width r)
           (options_height r) b.

(** ** The page *)

Inductive Display := display_none | display_block.
Inductive OverlayClass := class_empty | class_safe | class_crash.

(** A row of the history table: the four cells are the speed label, the
    weather label, the distance text followed by "m", and the outcome cell,
    whose text and class are fixed by [row_crashed]. *)
Record Row := mkRow {
  row_speed : Speed;
  row_weather : Weather;
  row_distance : string;
  row_crashed : bool
}.

(** The elements the script writes to.  The title, message and value texts
    of the overlay are fixed captions around [result_distance], chosen by
    [result_crashed]. *)
Record Document := mkDocument {
  overlay_display : Display;
  overlay_className : OverlayClass;
  result_distance : string;
  result_crashed : bool;
  start_btn_disabled : bool;
  history_body : list Row
}.

(** ** The globals of the script *)

Record State := mkState {
  currentObstacleDistance : Q;
  currentSpeed : Speed;
  currentWeather : Weather;
  lowSpeedCounter : Z;
  hasCrashed : bool;
  hasFinished : bool;
  isRunning : bool;
  carBody : Body;
  world : list StaticBody;
  render : Render;
  brakingStarted : bool;
  document : Document
}.

Definition startPos : Vector.t := Vector.mk (-100) 0.

Section Setters.
Variable s : State.

Definition set_currentObstacleDistance (d : Q) : State :=
    mkState d (currentSpeed s) (currentWeather s) (lowSpeedCounter s)
      (hasCrashed s) (hasFinished s) (isRunning s) (carBody s) (world s)
      (render s) (brakingStarted s) (document s).
Definition set_currentSpeed (v : Speed) : State :=
    mkState (currentObstacleDistance s) v (currentWeather s) (lowSpeedCounter s)
      (hasCrashed s) (hasFinished s) (isRunning s) (carBody s) (world s)
      (render s) (brakingStarted s) (document s).
Definition set_currentWeather (w : Weather) : State :=
    mkState (currentObstacleDistance s) (currentSpeed s) w (lowSpeedCounter s)
      (hasCrashed s) (hasFinished s) (isRunning s) (carBody s) (world s)
      (render s) (brakingStarted s) (document s).
Definition set_lowSpeedCounter (n : Z) : State :=
    mkState (currentObstacleDistance s) (currentSpeed s) (currentWeather s) n
      (hasCrashed s) (hasFinished s) (isRunning s) (carBody s) (world s)
      (render s) (brakingStarted s) (document s).
Definition set_hasCrashed (b : bool) : State :=
    mkState (currentObstacleDistance s) (currentSpeed s) (currentWeather s)
      (lowSpeedCounter s) b (hasFinished s) (isRunning s) (carBody s) (world s)
      (render s) (brakingStarted s) (document s).
Definition set_hasFinished (b : bool) : State :=
    mkState (currentObstacleDistance s) (currentSpeed s) (currentWeather s)
      (lowSpeedCounter s) (hasCrashed s) b (isRunning s) (carBody s) (world s)
      (render s) (brakingStarted s) (document s).
Definition set_isRunning (b : bool) : State :=
    mkState (currentObstacleDistance s) (currentSpeed s) (currentWeather s)
      (lowSpeedCounter s) (hasCrashed s) (hasFinished s) b (carBody s) (world s)
      (render s) (brakingStarted s) (document s).
Definition set_carBody (c : Body) : State :=
    mkState (currentObstacleDistance s) (currentSpeed s) (currentWeather s)
      (lowSpeedCounter s) (hasCrashed s) (hasFinished s) (isRunning s) c (world s)
      (render s) (brakingStarted s) (document s).
Definition set_world (w : list StaticBody) : State :=
    mkState (currentObstacleDistance s) (currentSpeed s) (currentWeather s)
      (lowSpeedCounter s) (hasCrashed s) (hasFinished s) (isRunning s) (carBody s) w
      (render s) (brakingStarted s) (document s).
Definition set_render (r : Render) : State :=
    mkState (currentObstacleDistance s) (currentSpeed s) (currentWeather s)
      (lowSpeedCounter s) (hasCrashed s) (hasFinished s) (isRunning s) (carBody s)
      (world s) r (brakingStarted s) (document s).
Definition set_brakingStarted (b : bool) : State :=
    mkState (currentObstacleDistance s) (currentSpeed s) (currentWeather s)
      (lowSpeedCounter s) (hasCrashed s) (hasFinished s) (isRunning s) (carBody s)
      (world s) (render s) b (document s).
Definition set_document (d : Document) : State :=
    mkState (currentObstacleDistance s) (currentSpeed s) (currentWeather s)
      (lowSpeedCounter s) (hasCrashed s) (hasFinished s) (isRunning s) (carBody s)
      (world s) (render s) (brakingStarted s) d.
End Setters.

Section DocumentSetters.
Variable d : Document.

Definition set_overlay (disp : Display) (cls : OverlayClass) : Document :=
    mkDocument disp cls (result_distance d) (result_crashed d)
      (start_btn_disabled d) (history_body d).
Definition set_result (dist : string) (crashed : bool) : Document :=
    mkDocument (overlay_display d) (overlay_className d) dist crashed
      (start_btn_disabled d) (history_body d).
Definition set_start_btn_disabled (b : bool) : Document :=
    mkDocument (overlay_display d) (overlay_className d) (result_distance d)
      (result_crashed d) b (history_body d).
Definition set_history_body (h : list Row) : Document :=
    mkDocument (overlay_display d) (overlay_className d) (result_distance d)
      (result_crashed d) (start_btn_disabled d) h.
End DocumentSetters.

(** ** The script *)

(** [resetWorld]: clears the scene, resets the run flags, hides the
    overlay, enables the start button, rebuilds ground, brake line, dummy
    (body and head) and car, and points the camera at the start position. *)
Definition resetWorld (s : State) : State :=
  let s := set_world s [] in
  let s := set_brakingStarted s false in
  let s := set_isRunning s false in
  let s := set_hasCrashed s false in
  let s := set_hasFinished s false in
  let s := set_document s (set_overlay (document s) display_none class_empty) in
  let s := set_document s (set_start_btn_disabled (document s) false) in
  let width := canvas_width (render s) in
  let height := canvas_height (render s) in
  let groundY := height - 20 in
  let groundWidth := Math_max (width * 2) 3000 in
  let groundCenterX := groundWidth / 2 - 200 in
  let ground :=
    mkStatic "Rectangle Body" (Vector.mk groundCenterX groundY)
             (Some (FRICTION_MAP (currentWeather s))) false in
  let brakeLine :=
    mkStatic "brakeLine" (Vector.mk BRAKE_LINE_X (groundY - 100)) None true in
  let obstacleX := BRAKE_LINE_X + currentObstacleDistance s in
  let dummy := mkStatic "dummy" (Vector.mk obstacleX (groundY - 40)) None false in
  let dummyHead := mkStatic "dummy" (Vector.mk obstacleX (groundY - 90)) None false in
  let s :=
    set_carBody s
      (mkBody "car" (Vector.mk (Vector.x startPos) (groundY - 30)) Vector.zero
              Vector.zero CAR_MASS 0 (1 # 100)) in
  let s := set_world s [ground; brakeLine; dummy; dummyHead] in
  set_render s
    (Render_lookAt
       (mkBounds (Vector.mk (Vector.x startPos - 200) 0)
                 (Vector.mk (Vector.x startPos + options_width (render s) - 200)
                            (options_height (render s))))
       (render s)).

(** [startSimulation]. *)
Definition startSimulation (s : State) : State :=
  if isRunning s then s
  else
    let s := set_isRunning s true in
    let s := set_lowSpeedCounter s 0 in
    let s := set_hasCrashed s false in
    let s := set_hasFinished s false in
    let s := set_document s (set_start_btn_disabled (document s) true) in
    let velocity := SPEED_MAP (currentSpeed s) in
    let s := set_carBody s (Body_setVelocity (Vector.mk velocity 0) (carBody s)) in
    set_carBody s (with_friction 0 0 (carBody s)).

(** [showResult(distance, crashed)]. *)
Definition showResult (distance : string) (crashed : bool) (s : State) : State :=
  let d := document s in
  let d := set_overlay d display_block (overlay_className d) in
  let d := set_overlay d display_block (if crashed then class_crash else class_safe) in
  set_document s (set_result d distance crashed).

(** [addToHistory(speed, weather, distance, crashed)]: the new row goes on top. *)
Definition addToHistory (speed : Speed) (weather : Weather) (distance : string)
    (crashed : bool) (s : State) : State :=
  let row := mkRow speed weather distance crashed in
  set_document s (set_history_body (document s) (row :: history_body (document s))).

(** The distance text both branches of [finishSimulation] compute.  The
    quotient by [SCALE] is a Number, rounded to a double, and [toFixed]
    prints that double.  (The difference before it needs no rounding: for
    a double position from the brake line up to 2^54 it is a double, and
    for a position before the brake line it is negative and [Math.max]
    replaces it by 0.) *)
Definition distanceM (s : State) : string :=
  let stopX := Vector.x (position (carBody s)) in
  let distancePx := Math_max 0 (stopX - BRAKE_LINE_X) in
  toFixed1 (Number_div distancePx SCALE).

(** [finishSimulation(crashed)]. *)
Definition finishSimulation (crashed : bool) (s : State) : State :=
  if hasFinished s && crashed && negb (hasCrashed s) then
    let s := set_hasCrashed s true in
    showResult (distanceM s) true s
  else if hasFinished s then s
  else
    let s := if crashed then set_hasCrashed s true else s in
    let s := set_hasFinished s true in
    let s := set_isRunning s false in
    let d := distanceM s in
    let s := addToHistory (currentSpeed s) (currentWeather s) d crashed s in
    showResult d crashed s.

(** The two multipliers of the force law, 0.001 and 0.01. *)
Definition k1 : Q := 1 # 1000.
Definition k2 : Q := 1 # 100.

(** [handleUpdate], first block: the camera follows the car. *)
Definition follow_car (s : State) : State :=
  let carX := Vector.x (position (carBody s)) in
  let padding := 200 in
  set_render s
    (Render_lookAt
       (mkBounds (Vector.mk (carX - padding) 0)
                 (Vector.mk (carX + options_width (render s) - padding)
                            (options_height (render s))))
       (render s)).

(** Second block: latch [brakingStarted] at the brake line. *)
Definition check_brake_line (s : State) : State :=
  if negb (brakingStarted s)
     && Qle_bool BRAKE_LINE_X (Vector.x (position (carBody s)))
  then set_brakingStarted s true else s.

(** The force of the braking branch for velocity [v], if any. *)
Definition braking_force (w : Weather) (m v : Q) : option Q :=
  let brakingForce := BRAKING_FORCE_MAP w in
  if Qlt_bool (5 # 10) v then Some (- v * brakingForce * m * k1)
  else if Qlt_bool (1 # 100) v then Some (- v * brakingForce * m * k2)
  else None.

(** Third block: hold the cruise speed before the line, brake after it. *)
Definition cruise_or_brake (s : State) : State :=
  if negb (brakingStarted s) then
    let targetSpeed := SPEED_MAP (currentSpeed s) in
    if Qlt_bool (Vector.x (velocity (carBody s))) targetSpeed then
      set_carBody s
        (Body_setVelocity (Vector.mk targetSpeed (Vector.y (velocity (carBody s))))
                          (carBody s))
    else s
  else
    let currentVelocity := Vector.x (velocity (carBody s)) in
    match braking_force (currentWeather s) (mass (carBody s)) currentVelocity with
    | Some f => set_carBody s (Body_applyForce (Vector.mk f 0) (carBody s))
    | None => s
    end.

(** Fourth block: stop detection. *)
Definition check_stopped (s : State) : State :=
  if brakingStarted s && negb (hasCrashed s) && negb (hasFinished s) then
    let speed := Math_abs (Vector.x (velocity (carBody s))) in
    if Qlt_bool speed (3 # 10) then
      let s := set_lowSpeedCounter s (lowSpeedCounter s + 1) in
      if (30 <? lowSpeedCounter s)%Z || Qlt_bool speed (5 # 100) then
        let s := set_carBody s (Body_setVelocity (Vector.mk 0 0) (carBody s)) in
        finishSimulation false s
      else s
    else set_lowSpeedCounter s 0
  else s.

(** [handleUpdate], the [beforeUpdate] callback. *)
Definition handleUpdate (s : State) : State :=
  if negb (isRunning s) then s
  else check_stopped (cruise_or_brake (check_brake_line (follow_car s))).

(** A colliding pair, by the labels of its two bodies. *)
Record Pair := mkPair { bodyA : string; bodyB : string }.

Definition car_and_dummy (p : Pair) : bool :=
  (String.eqb (bodyA p) "car" && String.eqb (bodyB p) "dummy")
  || (String.eqb (bodyB p) "car" && String.eqb (bodyA p) "dummy").

Fixpoint collision_loop (pairs : list Pair) (s : State) : State :=
  match pairs with
  | [] => s
  | p :: rest =>
      if car_and_dummy p then
        let s := set_hasCrashed s true in
        finishSimulation true s
      else collision_loop rest s
  end.

(** [handleCollision], the [collisionStart] callback. *)
Definition handleCollision (pairs : list Pair) (s : State) : State :=
  if hasCrashed s then s else collision_loop pairs s.

(** The click listeners of the three selection groups. *)
Definition selectSpeed (v : Speed) (s : State) : State :=
  if isRunning s then s else resetWorld (set_currentSpeed s v).
Definition selectWeather (w : Weather) (s : State) : State :=
  if isRunning s then s else resetWorld (set_currentWeather s w).
Definition selectDistance (d : Z) (s : State) : State :=
  if isRunning s then s else resetWorld (set_currentObstacleDistance s (inject_Z d)).

(** ** Events *)

(** What can happen to the page after [init]: the backend integrates (the
    car gets a new position and velocity and its force accumulator is
    cleared), it fires one of its two callbacks, or a listener runs. *)
Inductive Event :=
| Integrate (p v : Vector.t)
| BeforeUpdate
| CollisionStart (pairs : list Pair)
| ClickStart
| ClickReset
| ClickSpeed (v : Speed)
| ClickWeather (w : Weather)
| ClickDistance (d : Z)
| Resize (innerWidth : Q).

Definition integrate (p v : Vector.t) (s : State) : State :=
  let b := carBody s in
  set_carBody s (mkBody (label b) p v Vector.zero (mass b) (friction b) (frictionAir b)).

(** The [resize] listener of the window. *)
Definition resize (innerWidth : Q) (s : State) : State :=
  let r := render s in
  set_render s
    (mkRender innerWidth (canvas_height r) (options_width r) (options_height r)
              (bounds r)).

Definition step (e : Event) (s : State) : State :=
  match e with
  | Integrate p v => integrate p v s
  | BeforeUpdate => handleUpdate s
  | CollisionStart pairs => handleCollision pairs s
  | ClickStart => startSimulation s
  | ClickReset => resetWorld s
  | ClickSpeed v => selectSpeed v s
  | ClickWeather w => selectWeather w s
  | ClickDistance d => selectDistance d s
  | Resize w => resize w s
  end.

Fixpoint run (es : list Event) (s : State) : State :=
  match es with
  | [] => s
  | e :: es => run es (step e s)
  end.

(** The state [init] leaves in a window of the given width: the default
    configuration, a 400 pixel high canvas and the world built once (the
    car placed here is replaced by [resetWorld] before anything reads it). *)
Definition init (innerWidth : Q) : State :=
  resetWorld
    (mkState 400 kmh30 sunny 0 false false false
       (mkBody "car" startPos Vector.zero Vector.zero CAR_MASS 0 (1 # 100)) []
       (mkRender innerWidth 400 innerWidth 400
                 (mkBounds Vector.zero (Vector.mk innerWidth 400)))
       false
       (mkDocument display_none class_empty "" false false [])).

(** ** Derived notions used in the statements *)

(** Whether the braking branch is taken on this tick: the latch was set
    before, or the car is at or past the brake line now. *)
Definition braking (s : State) : bool :=
  brakingStarted s || Qle_bool BRAKE_LINE_X (Vector.x (position (carBody s))).

(** The first three blocks of [handleUpdate]. *)
Definition control (s : State) : State :=
  cruise_or_brake (check_brake_line (follow_car s)).

(** The guard of the stop-detection block. *)
Definition detecting (s : State) : bool :=
  brakingStarted s && negb (hasCrashed s) && negb (hasFinished s).

Definition speed_of (s : State) : Q := Math_abs (Vector.x (velocity (carBody s))).

(** The guard of stop detection as it stands when the tick reaches it. *)
Definition stop_detection_runs (s : State) : bool :=
  isRunning s && braking s && negb (hasCrashed s) && negb (hasFinished s).

(** One backend step followed by the per-tick callback. *)
Definition tick (pv : Vector.t * Vector.t) (s : State) : State :=
  handleUpdate (integrate (fst pv) (snd pv) s).

Fixpoint ticks (l : list (Vector.t * Vector.t)) (s : State) : State :=
  match l with
  | [] => s
  | pv :: l => ticks l (tick pv s)
  end.

(** A tick whose velocity is slow but not yet negligible. *)
Definition crawling (pv : Vector.t * Vector.t) : Prop :=
  5 # 100 <= Math_abs (Vector.x (snd pv)) /\ Math_abs (Vector.x (snd pv)) < 3 # 10.

(** Events other than a start and the world rebuilds (the reset button and
    the three selection groups, which rebuild when no run is active). *)
Definition no_start_or_reset (e : Event) : bool :=
  match e with
  | Integrate _ _ | BeforeUpdate | CollisionStart _ | Resize _ => true
  | _ => false
  end.

(** The pair is the car and the dummy, in either order. *)
Definition car_dummy_pair (p : Pair) : Prop :=
  (bodyA p = "car"%string /\ bodyB p = "dummy"%string) \/
  (bodyB p = "car"%string /\ bodyA p = "dummy"%string).

(** The event is a collision notification that lists such a pair. *)
Definition car_dummy_collision (e : Event) : Prop :=
  exists pairs, e = CollisionStart pairs /\ exists p, In p pairs /\ car_dummy_pair p.

(** Events other than the world rebuilds. *)
Definition no_rebuild (e : Event) : bool :=
  match e with
  | ClickReset | ClickSpeed _ | ClickWeather _ | ClickDistance _ => false
  | _ => true
  end.

(** The events of a run: the start, the backend's steps and callbacks. *)
Definition run_event (e : Event) : bool :=
  match e with
  | Integrate _ _ | BeforeUpdate | CollisionStart _ | ClickStart => true
  | _ => false
  end.

(** The selected configuration. *)
Definition config (s : State) : Q * Speed * Weather :=
  (currentObstacleDistance s, currentSpeed s, currentWeather s).

(** What a world rebuild reads: the configuration and the sizes of the
    canvas and of the renderer. *)
Definition setup (s : State) : Q * Speed * Weather * (Q * Q * Q * Q) :=
  (config s,
   (canvas_width (render s), canvas_height (render s),
    options_width (render s), options_height (render s))).

(** The static scene agrees with the configuration: the ground was
    created with the friction option of the selected weather (the option
    as the script passes it), the sensor is at the brake line, and both
    parts of the dummy are at the selected distance past it. *)
Definition scene_matches (s : State) : Prop :=
  exists ground brakeLine dummy dummyHead,
    world s = [ground; brakeLine; dummy; dummyHead] /\
    sfriction ground = Some (FRICTION_MAP (currentWeather s)) /\
    slabel brakeLine = "brakeLine"%string /\ sisSensor brakeLine = true /\
    Vector.x (sposition brakeLine) = BRAKE_LINE_X /\
    slabel dummy = "dummy"%string /\ slabel dummyHead = "dummy"%string /\
    Vector.x (sposition dummy) = BRAKE_LINE_X + currentObstacleDistance s /\
    Vector.x (sposition dummyHead) = BRAKE_LINE_X + currentObstacleDistance s.


(** The view is as wide and as high as the renderer and starts at height 0. *)
Definition view_fits (s : State) : Prop :=
  Vector.y (bmin (bounds (render s))) = 0 /\
  Vector.y (bmax (bounds (render s))) = options_height (render s) /\
  Vector.x (bmax (bounds (render s))) - Vector.x (bmin (bounds (render s)))
  == options_width (render s).

(** What stop detection decides and shows: the run flags, the counter and
    the page. *)
Definition outcome (s : State) : bool * bool * bool * bool * Z * Document :=
  (isRunning s, brakingStarted s, hasCrashed s, hasFinished s,
   lowSpeedCounter s, document s).

(** The distance in pixels that [finishSimulation] converts. *)
Definition distancePx (s : State) : Q :=
  Math_max 0 (Vector.x (position (carBody s)) - BRAKE_LINE_X).

(** The same distance in metres, as the Number [toFixed] is called on. *)
Definition distanceMetres (s : State) : Q := Number_div (distancePx s) SCALE.

(** The relative precision of a double, 2^-53. *)
Definition half_ulp : Q := 1 # 9007199254740992.

(** Events of the backend's integration, the tick and the window: the
    events other than a collision that [no_start_or_reset] admits. *)
Definition backend_only (e : Event) : bool :=
  match e with
  | Integrate _ _ | BeforeUpdate | Resize _ => true
  | _ => false
  end.

(** ** Sample runs

    A 1200 pixel wide window; the car is on the ground at height 350. *)

Definition on_road (px : Q) : Vector.t := Vector.mk px 350.
Definition along (vx : Q) : Vector.t := Vector.mk vx 0.

(** Started, past the brake line with the latch set, and then moved by the
    backend to position [px] with velocity [vx]. *)
Definition braking_run (px vx : Q) : State :=
  run [ClickStart; Integrate (on_road 150) (along 8); BeforeUpdate;
       Integrate (on_road px) (along vx)] (init 1200).

(** Started and moved by the backend to position [px] with velocity [vx],
    no tick yet. *)
Definition started_run (px vx : Q) : State :=
  run [ClickStart; Integrate (on_road px) (along vx)] (init 1200).

(** * Properties *)

(** Closed comparisons between numbers and closed evaluations of a run. *)
Ltac closed :=
  vm_compute; first [reflexivity | discriminate | intro; discriminate].

(** ** Comparisons and rounding *)

Lemma Qlt_bool_iff (a b : Q) : Qlt_bool a b = true <-> a < b.
Proof.
  unfold Qlt_bool. rewrite negb_true_iff, <- not_true_iff_false, Qle_bool_iff.
  split; [apply Qnot_le_lt | apply Qlt_not_le].
Qed.

Lemma Qlt_bool_false_iff (a b : Q) : Qlt_bool a b = false <-> b <= a.
Proof.
  unfold Qlt_bool. rewrite negb_false_iff. apply Qle_bool_iff.
Qed.

Lemma Math_max_spec (a b : Q) :
  (a < b /\ Math_max a b = b) \/ (b <= a /\ Math_max a b = a).
Proof.
  unfold Math_max. destruct (Qlt_bool a b) eqn:E.
  - left. split; [now apply Qlt_bool_iff | reflexivity].
  - right. split; [now apply Qlt_bool_false_iff | reflexivity].
Qed.

Lemma Math_max_nonneg (b : Q) : 0 <= Math_max 0 b.
Proof.
  destruct (Math_max_spec 0 b) as [[H ->] | [_ ->]]; [now apply Qlt_le_weak | apply Qle_refl].
Qed.

Lemma nearest_integer_bounds (x : Q) :
  x - (1 # 2) < inject_Z (nearest_integer x) /\ inject_Z (nearest_integer x) <= x + (1 # 2).
Proof.
  unfold nearest_integer. split.
  - pose proof (Qlt_floor (x + (1 # 2))) as H.
    rewrite inject_Z_plus in H. change (inject_Z 1) with 1 in H. lra.
  - apply Qfloor_le.
Qed.

Lemma nearest_integer_nonneg (x : Q) : 0 <= x -> (0 <= nearest_integer x)%Z.
Proof.
  intros H. unfold nearest_integer.
  change 0%Z with (Qfloor 0). apply Qfloor_resp_le. lra.
Qed.

Lemma toFixed1_nonneg (x : Q) :
  0 <= x -> toFixed1 x = fixed1_of_tenths (nearest_integer (x * 10)).
Proof.
  intros H. unfold toFixed1.
  apply Qlt_bool_false_iff in H. rewrite H. reflexivity.
Qed.

Example toFixed1_15 : toFixed1 15 = "15.0"%string.
Proof. reflexivity. Qed.

Example toFixed1_quarter : toFixed1 (1 # 4) = "0.3"%string.
Proof. reflexivity. Qed.

Example toFixed1_zero : toFixed1 0 = "0.0"%string.
Proof. reflexivity. Qed.

Example toFixed1_long : toFixed1 (1234567 # 1000) = "1234.6"%string.
Proof. reflexivity. Qed.

Example toFixed1_small_negative : toFixed1 (- (4 # 100)) = "-0.0"%string.
Proof. reflexivity. Qed.

(** ** Reading the distance text back *)

Lemma no_point_string_of_uint (d : Decimal.uint) :
  no_point (DecimalString.NilEmpty.string_of_uint d) = true.
Proof. induction d; simpl; auto. Qed.

Lemma no_point_app (a b : string) :
  no_point (a ++ b) = no_point a && no_point b.
Proof.
  induction a as [| c a IH]; simpl; [reflexivity|].
  rewrite IH. apply andb_assoc.
Qed.

Lemma split_point_app (a b : string) :
  no_point a = true -> split_point (a ++ String "." b) = Some (a, b).
Proof.
  induction a as [| c a IH]; simpl; intros H; [reflexivity|].
  apply andb_true_iff in H. destruct H as [Hc Ha].
  apply negb_true_iff in Hc. rewrite Hc, (IH Ha). reflexivity.
Qed.

(** A non-empty string is its first [k - 1] characters followed by its
    last one. *)
Lemma substring_last (m : string) :
  m <> EmptyString ->
  let k := String.length m in
  (substring 0 (k - 1) m ++ substring (k - 1) 1 m)%string = m /\
  String.length (substring (k - 1) 1 m) = 1%nat.
Proof.
  induction m as [| c m IH]; intros H; [congruence|].
  destruct m as [| c' m'].
  - simpl. split; reflexivity.
  - assert (N : String c' m' <> EmptyString) by discriminate.
    destruct (IH N) as [E L].
    cbn [String.length] in *. 
    replace (S (S (String.length m')) - 1)%nat with (S (String.length m')) by lia.
    replace (S (String.length m') - 1)%nat with (String.length m') in E, L by lia.
    cbn [substring]. cbn [append]. split; [f_equal; exact E | exact L].
Qed.

Lemma to_uint_nonnil (n : N) : N.to_uint n <> Decimal.Nil.
Proof.
  destruct n as [| p]; [discriminate | apply DecimalPos.Unsigned.to_uint_nonnil].
Qed.

Lemma digits_nonnil (n : Z) :
  digits n = DecimalString.NilEmpty.string_of_uint (N.to_uint (Z.to_N n)).
Proof.
  unfold digits. pose proof (to_uint_nonnil (Z.to_N n)) as Hn.
  destruct (N.to_uint (Z.to_N n)); [congruence | reflexivity ..].
Qed.

Lemma digits_read (n : Z) :
  digits n <> EmptyString /\ no_point (digits n) = true /\
  DecimalString.NilEmpty.uint_of_string (digits n) = Some (N.to_uint (Z.to_N n)).
Proof.
  rewrite digits_nonnil. repeat split.
  - pose proof (to_uint_nonnil (Z.to_N n)) as Hn.
    destruct (N.to_uint (Z.to_N n)); [congruence | discriminate ..].
  - apply no_point_string_of_uint.
  - apply DecimalString.NilEmpty.usu.
Qed.

(** The text of [n] tenths reads back as [n]. *)
Lemma tenths_of_fixed1_of_tenths (n : Z) :
  (0 <= n)%Z -> tenths_of_fixed1 (fixed1_of_tenths n) = Some n.
Proof.
  intros Hn. destruct (digits_read n) as (Hne & Hnp & Hu).
  unfold fixed1_of_tenths. cbv zeta.
  set (m := if (String.length (digits n) <=? 1)%nat then _ else _).
  assert (Hm : m <> EmptyString /\ no_point m = true /\
               exists d, DecimalString.NilEmpty.uint_of_string m = Some d /\
                         N.of_uint d = Z.to_N n).
  { unfold m. destruct (String.length (digits n) <=? 1)%nat.
    - split; [discriminate | split; [simpl; exact Hnp |]].
      exists (Decimal.D0 (N.to_uint (Z.to_N n))). split.
      + simpl. rewrite Hu. reflexivity.
      + change (N.of_uint (N.to_uint (Z.to_N n)) = Z.to_N n).
        apply DecimalN.Unsigned.of_to.
    - split; [exact Hne | split; [exact Hnp |]].
      exists (N.to_uint (Z.to_N n)). split; [exact Hu |].
      apply DecimalN.Unsigned.of_to. }
  destruct Hm as (Hm & Hp & d & Hd & Hv).
  destruct (substring_last m Hm) as [E L]. cbv zeta in E, L.
  set (a := substring 0 (String.length m - 1) m) in *.
  set (b := substring (String.length m - 1) 1 m) in *.
  assert (Ha : no_point a = true).
  { rewrite <- E, no_point_app in Hp. now apply andb_true_iff in Hp. }
  unfold tenths_of_fixed1.
  change (a ++ "." ++ b)%string with (a ++ String "." b)%string.
  rewrite (split_point_app a b Ha), L. simpl.
  rewrite E, Hd, Hv. f_equal. apply Z2N.id. exact Hn.
Qed.

Example tenths_of_fixed1_15 : tenths_of_fixed1 "15.0" = Some 150%Z.
Proof. reflexivity. Qed.

Example tenths_of_fixed1_misplaced : tenths_of_fixed1 "1.50" = None.
Proof. reflexivity. Qed.

(** ** Rounding to a double *)

Lemma pow2_pos (e : Z) : 0 < pow2 e.
Proof. apply Qpower_0_lt. reflexivity. Qed.

Lemma pow2_add (a b : Z) : pow2 (a + b) == pow2 a * pow2 b.
Proof. apply Qpower_plus. discriminate. Qed.

Lemma pow2_le (a b : Z) : (a <= b)%Z -> pow2 a <= pow2 b.
Proof. intros H. apply Qpower_le_compat_l; [exact H | discriminate]. Qed.

Lemma pow2_inject (n : Z) : (0 <= n)%Z -> inject_Z (2 ^ n) == pow2 n.
Proof. intros H. unfold pow2. now rewrite Zpower_Qpower. Qed.

Lemma log2_bracket (n : Z) :
  (0 < n)%Z -> pow2 (Z.log2 n) <= inject_Z n /\ inject_Z n < pow2 (Z.log2 n + 1).
Proof.
  intros H. destruct (Z.log2_spec n H) as [Hlo Hhi].
  pose proof (Z.log2_nonneg n) as Hn.
  rewrite <- !pow2_inject by lia. rewrite <- Zle_Qle, <- Zlt_Qlt.
  split; [exact Hlo | exact Hhi].
Qed.

Lemma Qmake_mult_den (x : Q) : x * inject_Z (Zpos (Qden x)) == inject_Z (Qnum x).
Proof.
  destruct x as [n d]. unfold Qeq, Qmult, inject_Z. cbn [Qnum Qden].
  rewrite Pos.mul_1_r. ring.
Qed.

Lemma Qnum_pos (x : Q) : 0 < x -> (0 < Qnum x)%Z.
Proof. destruct x as [n d]. unfold Qlt. simpl. lia. Qed.

(** The quotient of the two logarithms brackets a positive number within a
    factor of two on each side. *)
Lemma log2_quotient_bracket (x : Q) :
  0 < x ->
  let l := (Z.log2 (Qnum x) - Z.log2 (Zpos (Qden x)))%Z in
  pow2 (l - 1) < x /\ x < pow2 (l + 1).
Proof.
  intros Hx l.
  destruct (log2_bracket (Qnum x) (Qnum_pos x Hx)) as [Nlo Nhi].
  destruct (log2_bracket (Zpos (Qden x)) eq_refl) as [Dlo Dhi].
  pose proof (Qmake_mult_den x) as E.
  set (a := Z.log2 (Qnum x)) in *. set (b := Z.log2 (Zpos (Qden x))) in *.
  set (d := inject_Z (Zpos (Qden x))) in *. set (n := inject_Z (Qnum x)) in *.
  assert (Dpos : 0 < d) by reflexivity.
  split.
  - apply (Qmult_lt_r _ _ d Dpos). rewrite E.
    apply Qlt_le_trans with (pow2 (l - 1) * pow2 (b + 1)).
    + apply Qmult_lt_l; [apply pow2_pos | exact Dhi].
    + rewrite <- pow2_add. replace (l - 1 + (b + 1))%Z with a by (unfold l; lia).
      exact Nlo.
  - apply (Qmult_lt_r _ _ d Dpos). rewrite E.
    apply Qlt_le_trans with (pow2 (l + 1) * pow2 b).
    + rewrite <- pow2_add. replace (l + 1 + b)%Z with (a + 1)%Z by (unfold l; lia).
      exact Nhi.
    + apply Qmult_le_l; [apply pow2_pos | exact Dlo].
Qed.

(** The exponent puts the scaled number between 2^52 and 2^53. *)
Lemma binary64_exponent_bounds (x : Q) :
  0 < x ->
  pow2 52 * pow2 (binary64_exponent x) <= x /\
  x < pow2 53 * pow2 (binary64_exponent x).
Proof.
  intros Hx. destruct (log2_quotient_bracket x Hx) as [Hlo Hhi].
  unfold binary64_exponent.
  set (l := (Z.log2 (Qnum x) - Z.log2 (Zpos (Qden x)))%Z) in *.
  destruct (Qle_bool (pow2 l) x) eqn:C.
  - apply Qle_bool_iff in C. rewrite <- !pow2_add.
    replace (52 + (l - 52))%Z with l by lia.
    replace (53 + (l - 52))%Z with (l + 1)%Z by lia. split; assumption.
  - assert (C' : x < pow2 l).
    { apply Qnot_le_lt. intros H. apply Qle_bool_iff in H. congruence. }
    rewrite <- !pow2_add.
    replace (52 + (l - 53))%Z with (l - 1)%Z by lia.
    replace (53 + (l - 53))%Z with l by lia.
    split; [apply Qlt_le_weak; exact Hlo | exact C'].
Qed.

Lemma Qlt_bool_comp (a a' b b' : Q) :
  a == a' -> b == b' -> Qlt_bool a b = Qlt_bool a' b'.
Proof.
  intros Ea Eb. destruct (Qlt_bool a' b') eqn:C.
  - apply Qlt_bool_iff in C. apply Qlt_bool_iff. now rewrite Ea, Eb.
  - apply Qlt_bool_false_iff in C. apply Qlt_bool_false_iff. now rewrite Ea, Eb.
Qed.

Lemma round_half_even_comp (a b : Q) :
  a == b -> round_half_even a = round_half_even b.
Proof.
  intros E. unfold round_half_even. rewrite (Qfloor_comp a b E).
  assert (R : a - inject_Z (Qfloor b) == b - inject_Z (Qfloor b)) by now rewrite E.
  rewrite (Qlt_bool_comp _ _ (1 # 2) (1 # 2) R (Qeq_refl _)).
  rewrite (Qlt_bool_comp (1 # 2) (1 # 2) _ _ (Qeq_refl _) R). reflexivity.
Qed.

Lemma round_half_even_bounds (a : Q) :
  a - (1 # 2) <= inject_Z (round_half_even a) /\
  inject_Z (round_half_even a) <= a + (1 # 2).
Proof.
  unfold round_half_even.
  pose proof (Qfloor_le a) as Hle. pose proof (Qlt_floor a) as Hlt.
  rewrite inject_Z_plus in Hlt. change (inject_Z 1) with 1 in Hlt.
  destruct (Qlt_bool (a - inject_Z (Qfloor a)) (1 # 2)) eqn:C1.
  - apply Qlt_bool_iff in C1. split; lra.
  - apply Qlt_bool_false_iff in C1.
    destruct (Qlt_bool (1 # 2) (a - inject_Z (Qfloor a))) eqn:C2.
    + rewrite inject_Z_plus. change (inject_Z 1) with 1. split; lra.
    + apply Qlt_bool_false_iff in C2. destruct (Z.even (Qfloor a)).
      * split; lra.
      * rewrite inject_Z_plus. change (inject_Z 1) with 1. split; lra.
Qed.

Lemma round_half_even_inject (z : Z) : round_half_even (inject_Z z) = z.
Proof.
  unfold round_half_even. rewrite Qfloor_Z.
  assert (C : Qlt_bool (inject_Z z - inject_Z z) (1 # 2) = true)
    by (apply Qlt_bool_iff; lra).
  rewrite C. reflexivity.
Qed.

Lemma round_half_even_monotone (a b : Q) :
  a <= b -> (round_half_even a <= round_half_even b)%Z.
Proof.
  intros H. destruct (Z_le_gt_dec (round_half_even a) (round_half_even b)) as [L | G];
    [exact L | exfalso].
  destruct (round_half_even_bounds a) as [_ Ha].
  destruct (round_half_even_bounds b) as [Hb _].
  assert (G' : inject_Z (round_half_even b) + 1 <= inject_Z (round_half_even a)).
  { change 1 with (inject_Z 1). rewrite <- inject_Z_plus, <- Zle_Qle. lia. }
  assert (E : a == b) by lra.
  rewrite (round_half_even_comp a b E) in G. lia.
Qed.

Lemma pow2_52 : pow2 52 == 4503599627370496.
Proof. reflexivity. Qed.

Lemma pow2_53 : pow2 53 == 9007199254740992.
Proof. reflexivity. Qed.

Lemma scaled_back (x : Q) (e : Z) : x / pow2 e * pow2 e == x.
Proof.
  pose proof (pow2_pos e) as P. field. intros H. rewrite H in P. discriminate P.
Qed.

(** The mantissa has 53 bits. *)
Lemma round_positive_mantissa (x : Q) :
  0 < x ->
  (2 ^ 52 <= round_half_even (x / pow2 (binary64_exponent x)) <= 2 ^ 53)%Z.
Proof.
  intros Hx. destruct (binary64_exponent_bounds x Hx) as [Hlo Hhi].
  pose proof (pow2_pos (binary64_exponent x)) as P.
  split.
  - rewrite <- (round_half_even_inject (2 ^ 52)).
    apply round_half_even_monotone. rewrite pow2_inject by lia.
    apply Qle_shift_div_l; assumption.
  - rewrite <- (round_half_even_inject (2 ^ 53)).
    apply round_half_even_monotone. rewrite pow2_inject by lia.
    apply Qle_shift_div_r; [assumption | apply Qlt_le_weak; assumption].
Qed.

(** Rounding moves a positive number by at most the fraction 2^-53 of it. *)
Lemma round_positive_error (x : Q) :
  0 < x ->
  x - x * (1 # 9007199254740992) <= round_positive x /\
  round_positive x <= x + x * (1 # 9007199254740992).
Proof.
  intros Hx. destruct (binary64_exponent_bounds x Hx) as [Hlo _].
  unfold round_positive. set (p := pow2 (binary64_exponent x)) in *.
  pose proof (pow2_pos (binary64_exponent x)) as P. fold p in P.
  pose proof (scaled_back x (binary64_exponent x)) as A. fold p in A.
  destruct (round_half_even_bounds (x / p)) as [Mlo Mhi].
  set (m := inject_Z (round_half_even (x / p))) in *.
  rewrite pow2_52 in Hlo.
  assert (L : (x / p - (1 # 2)) * p <= m * p) by (apply Qmult_le_r; assumption).
  assert (U : m * p <= (x / p + (1 # 2)) * p) by (apply Qmult_le_r; assumption).
  assert (L' : (x / p - (1 # 2)) * p == x - (1 # 2) * p).
  { rewrite <- A at 2. ring. }
  assert (U' : (x / p + (1 # 2)) * p == x + (1 # 2) * p).
  { rewrite <- A at 2. ring. }
  rewrite L' in L. rewrite U' in U. split; lra.
Qed.

Lemma round_positive_monotone (x y : Q) :
  0 < x -> x <= y -> round_positive x <= round_positive y.
Proof.
  intros Hx Hxy. assert (Hy : 0 < y) by lra.
  destruct (binary64_exponent_bounds x Hx) as [Xlo Xhi].
  destruct (binary64_exponent_bounds y Hy) as [Ylo Yhi].
  destruct (round_positive_mantissa x Hx) as [_ Mx].
  destruct (round_positive_mantissa y Hy) as [My _].
  unfold round_positive.
  set (ex := binary64_exponent x) in *. set (ey := binary64_exponent y) in *.
  pose proof (pow2_pos ex) as Px. pose proof (pow2_pos ey) as Py.
  destruct (Z.lt_trichotomy ex ey) as [Lt | [Eq | Gt]].
  - apply Qle_trans with (pow2 53 * pow2 ex).
    + apply Qmult_le_r; [exact Px |]. rewrite <- (pow2_inject 53) by lia.
      rewrite <- Zle_Qle. exact Mx.
    + apply Qle_trans with (pow2 52 * pow2 ey).
      * rewrite <- !pow2_add. apply pow2_le. lia.
      * apply Qmult_le_r; [exact Py |]. rewrite <- (pow2_inject 52) by lia.
        rewrite <- Zle_Qle. exact My.
  - rewrite Eq. apply Qmult_le_r; [exact Py |]. rewrite <- Zle_Qle.
    apply round_half_even_monotone.
    apply Qmult_le_r with (z := pow2 ey); [exact Py |].
    rewrite !scaled_back. exact Hxy.
  - exfalso. assert (H : pow2 53 * pow2 ey <= pow2 52 * pow2 ex).
    { rewrite <- !pow2_add. apply pow2_le. lia. }
    lra.
Qed.

Lemma round_binary64_positive (x : Q) : 0 < x -> round_binary64 x = round_positive x.
Proof.
  intros H. unfold round_binary64. apply Qlt_bool_iff in H. now rewrite H.
Qed.

Lemma round_binary64_zero (x : Q) : x == 0 -> round_binary64 x = 0.
Proof.
  intros H. unfold round_binary64.
  assert (A : Qlt_bool 0 x = false) by (apply Qlt_bool_false_iff; lra).
  assert (B : Qlt_bool x 0 = false) by (apply Qlt_bool_false_iff; lra).
  now rewrite A, B.
Qed.

Lemma Qle_zero_cases (x : Q) : 0 <= x -> x == 0 \/ 0 < x.
Proof.
  intros H. destruct (Qlt_le_dec 0 x) as [L | L]; [now right | left; lra].
Qed.

(** On the non-negative numbers the rounded value stays within the
    fraction 2^-53 of the exact one. *)
Lemma round_binary64_error (x : Q) :
  0 <= x ->
  x - x * (1 # 9007199254740992) <= round_binary64 x /\
  round_binary64 x <= x + x * (1 # 9007199254740992).
Proof.
  intros H. destruct (Qle_zero_cases x H) as [Z | P].
  - rewrite (round_binary64_zero x Z). rewrite Z. split; lra.
  - rewrite (round_binary64_positive x P). now apply round_positive_error.
Qed.

Lemma round_binary64_nonneg (x : Q) : 0 <= x -> 0 <= round_binary64 x.
Proof.
  intros H. destruct (round_binary64_error x H) as [L _].
  assert (E : x - x * (1 # 9007199254740992) == x * (9007199254740991 # 9007199254740992))
    by ring.
  rewrite E in L. apply Qle_trans with (2 := L).
  apply Qmult_le_0_compat; [exact H | discriminate].
Qed.

(** Rounding keeps the order of the non-negative numbers. *)
Lemma round_binary64_monotone (x y : Q) :
  0 <= x -> x <= y -> round_binary64 x <= round_binary64 y.
Proof.
  intros Hx Hxy. destruct (Qle_zero_cases x Hx) as [Z | P].
  - rewrite (round_binary64_zero x Z). apply round_binary64_nonneg. lra.
  - assert (Py : 0 < y) by lra.
    rewrite (round_binary64_positive x P), (round_binary64_positive y Py).
    now apply round_positive_monotone.
Qed.

(** 3.5 / 10 is the double just below 0.35, and prints as 0.3. *)
Example Number_div_35 :
  Number_div (35 # 10) 10 == 3152519739159347 # 9007199254740992 /\
  toFixed1 (Number_div (35 # 10) 10) = "0.3"%string.
Proof. split; reflexivity. Qed.

Example Number_div_150 :
  Number_div 150 10 == 15 /\ toFixed1 (Number_div 150 10) = "15.0"%string.
Proof. split; reflexivity. Qed.

(** A double just above a power of two: 2^53 + 1 is a tie and goes to the
    even mantissa, 2^53 + 3 to 2^53 + 4. *)
Example round_binary64_ties :
  round_binary64 9007199254740993 == 9007199254740992 /\
  round_binary64 9007199254740995 == 9007199254740996 /\
  round_binary64 (1 # 10) == 3602879701896397 # 36028797018963968.
Proof. repeat split. Qed.

(** ** Finalization *)

Lemma finishSimulation_fresh (c : bool) (s : State) :
  hasFinished s = false ->
  finishSimulation c s =
  showResult (distanceM s) c
    (addToHistory (currentSpeed s) (currentWeather s) (distanceM s) c
       (set_isRunning
          (set_hasFinished (if c then set_hasCrashed s true else s) true) false)).
Proof.
  intros H. unfold finishSimulation. rewrite H. simpl. destruct c; reflexivity.
Qed.

Lemma finishSimulation_ignored (c : bool) (s : State) :
  hasFinished s = true -> (c = true -> hasCrashed s = true) ->
  finishSimulation c s = s.
Proof.
  intros Hf Hc. unfold finishSimulation. rewrite Hf.
  destruct c; simpl; [rewrite Hc by reflexivity|]; reflexivity.
Qed.

Lemma finishSimulation_flags (c : bool) (s : State) :
  hasFinished s = false ->
  hasFinished (finishSimulation c s) = true /\
  isRunning (finishSimulation c s) = false /\
  hasCrashed (finishSimulation c s) = (c || hasCrashed s)%bool /\
  carBody (finishSimulation c s) = carBody s /\
  history_body (document (finishSimulation c s)) =
    mkRow (currentSpeed s) (currentWeather s) (distanceM s) c
    :: history_body (document s).
Proof.
  intros H. rewrite (finishSimulation_fresh c s H).
  destruct c; repeat split; reflexivity.
Qed.

Lemma finishSimulation_carBody (c : bool) (s : State) :
  carBody (finishSimulation c s) = carBody s.
Proof.
  unfold finishSimulation.
  destruct (hasFinished s), c, (hasCrashed s); reflexivity.
Qed.

Lemma finishSimulation_start_btn (c : bool) (s : State) :
  start_btn_disabled (document (finishSimulation c s)) = start_btn_disabled (document s).
Proof.
  unfold finishSimulation.
  destruct (hasFinished s), c, (hasCrashed s); reflexivity.
Qed.

Lemma finishSimulation_finished (c : bool) (s : State) :
  hasFinished (finishSimulation c s) = true.
Proof.
  unfold finishSimulation.
  destruct (hasFinished s) eqn:E, c, (hasCrashed s) eqn:E'; simpl; auto.
Qed.

(** ** The tick before stop detection *)

Lemma handleUpdate_running (s : State) :
  isRunning s = true -> handleUpdate s = check_stopped (control s).
Proof. intros H. unfold handleUpdate. rewrite H. reflexivity. Qed.

Lemma handleUpdate_not_running (s : State) :
  isRunning s = false -> handleUpdate s = s.
Proof. intros H. unfold handleUpdate. rewrite H. reflexivity. Qed.

Lemma check_brake_line_latch (s : State) :
  check_brake_line (follow_car s) = set_brakingStarted (follow_car s) (braking s).
Proof.
  unfold check_brake_line, braking. destruct s as [? ? ? ? ? ? ? ? ? ? bs ?]. simpl.
  destruct bs; simpl; [reflexivity|].
  destruct (Qle_bool BRAKE_LINE_X _); reflexivity.
Qed.

Lemma control_frame (s : State) :
  brakingStarted (control s) = braking s /\
  hasCrashed (control s) = hasCrashed s /\
  hasFinished (control s) = hasFinished s /\
  isRunning (control s) = isRunning s /\
  lowSpeedCounter (control s) = lowSpeedCounter s /\
  document (control s) = document s /\
  currentSpeed (control s) = currentSpeed s /\
  currentWeather (control s) = currentWeather s /\
  position (carBody (control s)) = position (carBody s).
Proof.
  unfold control. rewrite check_brake_line_latch. unfold cruise_or_brake. simpl.
  destruct (braking s); simpl.
  - destruct (braking_force _ _ _); repeat split; reflexivity.
  - destruct (Qlt_bool _ _); repeat split; reflexivity.
Qed.

Lemma control_braking (s : State) :
  braking s = true ->
  carBody (control s) =
  match braking_force (currentWeather s) (mass (carBody s))
                      (Vector.x (velocity (carBody s))) with
  | Some f => Body_applyForce (Vector.mk f 0) (carBody s)
  | None => carBody s
  end.
Proof.
  intros H. unfold control. rewrite check_brake_line_latch. unfold cruise_or_brake.
  simpl. rewrite H. simpl. destruct (braking_force _ _ _); reflexivity.
Qed.

Lemma control_braking_velocity (s : State) :
  braking s = true -> velocity (carBody (control s)) = velocity (carBody s).
Proof.
  intros H. rewrite (control_braking s H). destruct (braking_force _ _ _); reflexivity.
Qed.

Lemma distanceM_position (s t : State) :
  position (carBody s) = position (carBody t) -> distanceM s = distanceM t.
Proof. intros H. unfold distanceM. rewrite H. reflexivity. Qed.

(** ** Stop detection *)

Lemma check_stopped_off (s : State) : detecting s = false -> check_stopped s = s.
Proof. unfold detecting, check_stopped. intros ->. reflexivity. Qed.

Lemma check_stopped_fast (s : State) :
  detecting s = true -> 3 # 10 <= speed_of s ->
  check_stopped s = set_lowSpeedCounter s 0.
Proof.
  unfold detecting, check_stopped, speed_of. intros -> H.
  apply Qlt_bool_false_iff in H. rewrite H. reflexivity.
Qed.

Lemma check_stopped_stop (s : State) :
  detecting s = true -> speed_of s < 3 # 10 ->
  (30 < lowSpeedCounter s + 1)%Z \/ speed_of s < 5 # 100 ->
  check_stopped s =
  finishSimulation false
    (set_carBody (set_lowSpeedCounter s (lowSpeedCounter s + 1))
       (Body_setVelocity (Vector.mk 0 0) (carBody s))).
Proof.
  unfold detecting, check_stopped, speed_of. intros -> H Hor.
  apply Qlt_bool_iff in H. rewrite H. simpl.
  assert ((30 <? lowSpeedCounter s + 1)%Z
          || Qlt_bool (Math_abs (Vector.x (velocity (carBody s)))) (5 # 100) = true) as ->.
  { apply orb_true_iff. destruct Hor as [Hc | Hv].
    - left. now apply Z.ltb_lt.
    - right. now apply Qlt_bool_iff. }
  reflexivity.
Qed.

Lemma check_stopped_slow (s : State) :
  detecting s = true -> speed_of s < 3 # 10 ->
  (lowSpeedCounter s + 1 <= 30)%Z -> 5 # 100 <= speed_of s ->
  check_stopped s = set_lowSpeedCounter s (lowSpeedCounter s + 1).
Proof.
  unfold detecting, check_stopped, speed_of. intros -> H Hc Hv.
  apply Qlt_bool_iff in H. rewrite H. simpl.
  apply Z.ltb_ge in Hc. rewrite Hc.
  apply Qlt_bool_false_iff in Hv. rewrite Hv. reflexivity.
Qed.

Lemma detecting_control (s : State) :
  isRunning s = true -> detecting (control s) = stop_detection_runs s.
Proof.
  intros H. unfold detecting, stop_detection_runs.
  destruct (control_frame s) as (-> & -> & -> & _). rewrite H. reflexivity.
Qed.

Lemma speed_of_control (s : State) :
  braking s = true -> speed_of (control s) = speed_of s.
Proof. intros H. unfold speed_of. now rewrite control_braking_velocity. Qed.


Lemma stop_detection_runs_true (s : State) :
  stop_detection_runs s = true ->
  isRunning s = true /\ braking s = true /\ hasCrashed s = false /\ hasFinished s = false.
Proof.
  unfold stop_detection_runs.
  destruct (isRunning s), (braking s), (hasCrashed s), (hasFinished s);
    simpl; intros H; try discriminate H; repeat split.
Qed.

Lemma handleUpdate_detection_off (s : State) :
  stop_detection_runs s = false ->
  lowSpeedCounter (handleUpdate s) = lowSpeedCounter s /\
  hasFinished (handleUpdate s) = hasFinished s /\
  hasCrashed (handleUpdate s) = hasCrashed s /\
  isRunning (handleUpdate s) = isRunning s /\
  document (handleUpdate s) = document s.
Proof.
  intros H. destruct (isRunning s) eqn:R.
  - rewrite (handleUpdate_running s R), check_stopped_off
      by (now rewrite detecting_control).
    destruct (control_frame s) as (_ & -> & -> & -> & -> & -> & _).
    repeat split; auto.
  - rewrite (handleUpdate_not_running s R). repeat split; auto.
Qed.

Lemma handleUpdate_fast (s : State) :
  stop_detection_runs s = true -> 3 # 10 <= speed_of s ->
  handleUpdate s = set_lowSpeedCounter (control s) 0.
Proof.
  intros H Hv. destruct (stop_detection_runs_true s H) as (R & B & _).
  rewrite (handleUpdate_running s R). apply check_stopped_fast.
  - now rewrite detecting_control.
  - now rewrite speed_of_control.
Qed.

Lemma handleUpdate_stop (s : State) :
  stop_detection_runs s = true -> speed_of s < 3 # 10 ->
  (30 < lowSpeedCounter s + 1)%Z \/ speed_of s < 5 # 100 ->
  handleUpdate s =
  finishSimulation false
    (set_carBody (set_lowSpeedCounter (control s) (lowSpeedCounter s + 1))
       (Body_setVelocity (Vector.mk 0 0) (carBody (control s)))).
Proof.
  intros H Hv Hor. destruct (stop_detection_runs_true s H) as (R & B & _).
  rewrite (handleUpdate_running s R).
  destruct (control_frame s) as (_ & _ & _ & _ & Hc & _).
  rewrite <- Hc. apply check_stopped_stop.
  - now rewrite detecting_control.
  - now rewrite speed_of_control.
  - now rewrite Hc, speed_of_control.
Qed.

Lemma handleUpdate_slow (s : State) :
  stop_detection_runs s = true -> speed_of s < 3 # 10 ->
  (lowSpeedCounter s + 1 <= 30)%Z -> 5 # 100 <= speed_of s ->
  handleUpdate s = set_lowSpeedCounter (control s) (lowSpeedCounter s + 1).
Proof.
  intros H Hv Hc Hs. destruct (stop_detection_runs_true s H) as (R & B & _).
  rewrite (handleUpdate_running s R).
  destruct (control_frame s) as (_ & _ & _ & _ & Hl & _).
  rewrite <- Hl. apply check_stopped_slow.
  - now rewrite detecting_control.
  - now rewrite speed_of_control.
  - now rewrite Hl.
  - now rewrite speed_of_control.
Qed.

(** During a run that is braking and not yet decided, [n] crawling ticks
    in a row add [n] to the counter and leave the run undecided, as long
    as the counter stays within 30. *)
Lemma crawling_ticks_count (l : list (Vector.t * Vector.t)) :
  forall s : State,
    isRunning s = true -> brakingStarted s = true ->
    hasCrashed s = false -> hasFinished s = false ->
    Forall crawling l ->
    (lowSpeedCounter s + Z.of_nat (List.length l) <= 30)%Z ->
    isRunning (ticks l s) = true /\ brakingStarted (ticks l s) = true /\
    hasCrashed (ticks l s) = false /\ hasFinished (ticks l s) = false /\
    lowSpeedCounter (ticks l s) = (lowSpeedCounter s + Z.of_nat (List.length l))%Z /\
    history_body (document (ticks l s)) = history_body (document s).
Proof.
  induction l as [| [p v] l IH]; intros s R B C F Hl Hn.
  - simpl. rewrite Z.add_0_r. repeat split; assumption.
  - inversion Hl as [| ? ? [Hlo Hhi] Hl']; subst. simpl in Hlo, Hhi.
    cbn [ticks]. cbn [List.length] in Hn. rewrite Nat2Z.inj_succ in Hn.
    set (i := integrate p v s).
    assert (Hi : stop_detection_runs i = true).
    { unfold stop_detection_runs, braking, i. simpl. now rewrite R, B, C, F. }
    assert (Ht : tick (p, v) s = set_lowSpeedCounter (control i) (lowSpeedCounter s + 1)).
    { unfold tick. simpl. fold i. apply (handleUpdate_slow i Hi).
      - exact Hhi.
      - unfold i. simpl. lia.
      - exact Hlo. }
    destruct (control_frame i) as (Hb & Hc & Hf & Hr & _ & Hd & _).
    destruct (stop_detection_runs_true i Hi) as (_ & Bi & _).
    specialize (IH (tick (p, v) s)). rewrite Ht in IH |- *. simpl in IH.
    rewrite Hb, Hc, Hf, Hr, Hd in IH.
    destruct IH as (? & ? & ? & ? & Hcount & Hhist);
      try assumption; try (unfold i; simpl; assumption); try lia.
    cbn [List.length]. rewrite Nat2Z.inj_succ, <- Z.add_1_l, Z.add_assoc.
    repeat split; assumption.
Qed.

(** C4.  Stop detection.  On a tick the block runs exactly when the run is
    active, braking has started and the run is neither crashed nor
    finished; otherwise the counter, the flags and the page are left alone.
    When it runs: a speed of 0.3 or more resets the counter to 0 and the
    run goes on; a speed below 0.3 with the counter passing 30, or a speed
    below 0.05, sets the velocity to exactly zero and finalizes the run
    with crashed = false (one new history row); any other slow tick adds
    one to the counter.  The counter is the number of slow ticks in a row:
    after up to 30 crawling ticks from a zero counter the run is still
    undecided, and the next slow tick after 30 of them finalizes it. *)
Theorem stop_detection_C4 (s : State) :
  let s' := handleUpdate s in
  let row := mkRow (currentSpeed s) (currentWeather s) (distanceM s) false in
  (stop_detection_runs s = false ->
     lowSpeedCounter s' = lowSpeedCounter s /\ hasFinished s' = hasFinished s /\
     hasCrashed s' = hasCrashed s /\ document s' = document s) /\
  (stop_detection_runs s = true -> 3 # 10 <= speed_of s ->
     lowSpeedCounter s' = 0%Z /\ hasFinished s' = false /\ isRunning s' = true /\
     velocity (carBody s') = velocity (carBody s) /\
     history_body (document s') = history_body (document s)) /\
  (stop_detection_runs s = true -> speed_of s < 3 # 10 ->
   (30 < lowSpeedCounter s + 1)%Z \/ speed_of s < 5 # 100 ->
     velocity (carBody s') = Vector.mk 0 0 /\ hasFinished s' = true /\
     hasCrashed s' = false /\ isRunning s' = false /\
     history_body (document s') = row :: history_body (document s)) /\
  (stop_detection_runs s = true -> speed_of s < 3 # 10 ->
   (lowSpeedCounter s + 1 <= 30)%Z -> 5 # 100 <= speed_of s ->
     lowSpeedCounter s' = (lowSpeedCounter s + 1)%Z /\ hasFinished s' = false /\
     isRunning s' = true /\
     history_body (document s') = history_body (document s)) /\
  (isRunning s = true -> brakingStarted s = true -> hasCrashed s = false ->
   hasFinished s = false -> lowSpeedCounter s = 0%Z ->
   forall l : list (Vector.t * Vector.t),
     Forall crawling l -> (List.length l <= 30)%nat ->
     lowSpeedCounter (ticks l s) = Z.of_nat (List.length l) /\
     hasFinished (ticks l s) = false /\
     (List.length l = 30%nat ->
      forall pv, Math_abs (Vector.x (snd pv)) < 3 # 10 ->
        hasFinished (tick pv (ticks l s)) = true /\
        hasCrashed (tick pv (ticks l s)) = false /\
        velocity (carBody (tick pv (ticks l s))) = Vector.mk 0 0)).
Proof.
  intros s' row. subst s' row. repeat apply conj.
  - intros H. destruct (handleUpdate_detection_off s H) as (? & ? & ? & ? & ?).
    repeat split; assumption.
  - intros H Hv. rewrite (handleUpdate_fast s H Hv).
    destruct (stop_detection_runs_true s H) as (R & B & C & F).
    destruct (control_frame s) as (_ & _ & Hf & Hr & _ & Hd & _).
    simpl. rewrite Hf, Hr, Hd, (control_braking_velocity s B). repeat split; assumption.
  - intros H Hv Hor. rewrite (handleUpdate_stop s H Hv Hor).
    destruct (stop_detection_runs_true s H) as (R & B & C & F).
    destruct (control_frame s) as (_ & Hc & Hf & _ & _ & Hd & Hsp & Hw & Hp).
    set (t := set_carBody _ _).
    assert (Ft : hasFinished t = false) by (unfold t; simpl; congruence).
    destruct (finishSimulation_flags false t Ft) as (-> & -> & -> & -> & ->).
    assert (Dt : distanceM t = distanceM s) by (apply distanceM_position; exact Hp).
    rewrite Dt. unfold t. simpl. rewrite Hc, Hd, Hsp, Hw. repeat split; assumption.
  - intros H Hv Hc Hs. rewrite (handleUpdate_slow s H Hv Hc Hs).
    destruct (stop_detection_runs_true s H) as (R & B & C & F).
    destruct (control_frame s) as (_ & _ & Hf & Hr & _ & Hd & _).
    simpl. rewrite Hf, Hr, Hd. repeat split; assumption.
  - intros R B C F Z0 l Hl Hn.
    destruct (crawling_ticks_count l s R B C F Hl) as (R' & B' & C' & F' & N' & _);
      [lia|]. rewrite Z0 in N'. simpl in N'.
    split; [assumption | split; [assumption |]].
    intros H30 pv Hv. unfold tick.
    set (i := integrate (fst pv) (snd pv) (ticks l s)).
    assert (Hi : stop_detection_runs i = true).
    { unfold stop_detection_runs, braking, i. simpl. now rewrite R', B', C', F'. }
    assert (Hor : (30 < lowSpeedCounter i + 1)%Z \/ speed_of i < 5 # 100).
    { left. unfold i. simpl. lia. }
    rewrite (handleUpdate_stop i Hi Hv Hor).
    destruct (control_frame i) as (_ & Hc & Hf & _).
    set (t := set_carBody _ _).
    assert (Ft : hasFinished t = false).
    { unfold t. simpl. rewrite Hf. unfold i. simpl. exact F'. }
    destruct (finishSimulation_flags false t Ft) as (-> & _ & -> & -> & _).
    unfold t. simpl. rewrite Hc. unfold i. simpl. rewrite C'. repeat split.
Qed.

Lemma stop_detection_C4_witness :
  (stop_detection_runs (init 1200) = false /\
   lowSpeedCounter (handleUpdate (init 1200)) = lowSpeedCounter (init 1200)) /\
  (stop_detection_runs (braking_run 300 1) = true /\
   3 # 10 <= speed_of (braking_run 300 1) /\
   lowSpeedCounter (handleUpdate (braking_run 300 1)) = 0%Z) /\
  (stop_detection_runs (braking_run 300 (4 # 100)) = true /\
   speed_of (braking_run 300 (4 # 100)) < 5 # 100 /\
   velocity (carBody (handleUpdate (braking_run 300 (4 # 100)))) = Vector.mk 0 0 /\
   hasFinished (handleUpdate (braking_run 300 (4 # 100))) = true) /\
  (stop_detection_runs (braking_run 300 (1 # 10)) = true /\
   5 # 100 <= speed_of (braking_run 300 (1 # 10)) /\
   lowSpeedCounter (handleUpdate (braking_run 300 (1 # 10))) =
   (lowSpeedCounter (braking_run 300 (1 # 10)) + 1)%Z) /\
  (Forall crawling [(on_road 300, along (1 # 10))] /\
   hasFinished (ticks [(on_road 300, along (1 # 10))] (braking_run 300 1)) = false).
Proof.
  destruct (stop_detection_C4 (init 1200)) as (Hoff & _).
  destruct (stop_detection_C4 (braking_run 300 1)) as (_ & Hfast & _ & _ & Hrow).
  destruct (stop_detection_C4 (braking_run 300 (4 # 100))) as (_ & _ & Hstop & _).
  destruct (stop_detection_C4 (braking_run 300 (1 # 10))) as (_ & _ & _ & Hslow & _).
  assert (Hc : Forall crawling [(on_road 300, along (1 # 10))])
    by (repeat constructor; closed).
  assert (O1 : stop_detection_runs (init 1200) = false) by closed.
  assert (F1 : stop_detection_runs (braking_run 300 1) = true) by closed.
  assert (F2 : 3 # 10 <= speed_of (braking_run 300 1)) by closed.
  assert (S1 : stop_detection_runs (braking_run 300 (4 # 100)) = true) by closed.
  assert (S2 : speed_of (braking_run 300 (4 # 100)) < 3 # 10) by closed.
  assert (S3 : speed_of (braking_run 300 (4 # 100)) < 5 # 100) by closed.
  assert (L1 : stop_detection_runs (braking_run 300 (1 # 10)) = true) by closed.
  assert (L2 : speed_of (braking_run 300 (1 # 10)) < 3 # 10) by closed.
  assert (L3 : (lowSpeedCounter (braking_run 300 (1 # 10)) + 1 <= 30)%Z) by closed.
  assert (L4 : 5 # 100 <= speed_of (braking_run 300 (1 # 10))) by closed.
  assert (R : isRunning (braking_run 300 1) = true) by closed.
  assert (B : brakingStarted (braking_run 300 1) = true) by closed.
  assert (C : hasCrashed (braking_run 300 1) = false) by closed.
  assert (F : hasFinished (braking_run 300 1) = false) by closed.
  assert (Z0 : lowSpeedCounter (braking_run 300 1) = 0%Z) by closed.
  assert (Hn : (List.length [(on_road 300, along (1 # 10))] <= 30)%nat)
    by (cbn [List.length]; lia).
  destruct (Hoff O1) as (A1 & _).
  destruct (Hfast F1 F2) as (A2 & _).
  destruct (Hstop S1 S2 (or_intror S3)) as (A3 & A4 & _).
  destruct (Hslow L1 L2 L3 L4) as (A5 & _).
  destruct (Hrow R B C F Z0 _ Hc Hn) as (_ & A6 & _).
  repeat (split; try assumption).
Defined.

(** ** The force law *)

Lemma check_stopped_force (s : State) :
  force (carBody (check_stopped s)) = force (carBody s).
Proof.
  unfold check_stopped. destruct (_ && _); [|reflexivity].
  destruct (Qlt_bool _ (3 # 10)); [|reflexivity].
  destruct (_ || _); [|reflexivity].
  rewrite finishSimulation_carBody. reflexivity.
Qed.

Lemma braking_force_high (w : Weather) (m v : Q) :
  5 # 10 < v -> braking_force w m v = Some (- v * BRAKING_FORCE_MAP w * m * k1).
Proof.
  intros H. unfold braking_force. apply Qlt_bool_iff in H. rewrite H. reflexivity.
Qed.

Lemma braking_force_low (w : Weather) (m v : Q) :
  1 # 100 < v -> v <= 5 # 10 ->
  braking_force w m v = Some (- v * BRAKING_FORCE_MAP w * m * k2).
Proof.
  intros Hl Hh. unfold braking_force.
  apply Qlt_bool_false_iff in Hh. rewrite Hh.
  apply Qlt_bool_iff in Hl. rewrite Hl. reflexivity.
Qed.

Lemma braking_force_none (w : Weather) (m v : Q) :
  v <= 1 # 100 -> braking_force w m v = None.
Proof.
  intros H. unfold braking_force.
  assert (H' : v <= 5 # 10) by lra.
  apply Qlt_bool_false_iff in H, H'. rewrite H, H'. reflexivity.
Qed.

Lemma BRAKING_FORCE_MAP_pos (w : Weather) : 0 < BRAKING_FORCE_MAP w.
Proof. destruct w; reflexivity. Qed.

(** The coefficients fall strictly from dry to wet to icy. *)
Lemma BRAKING_FORCE_MAP_order :
  BRAKING_FORCE_MAP icy < BRAKING_FORCE_MAP rainy /\
  BRAKING_FORCE_MAP rainy < BRAKING_FORCE_MAP sunny.
Proof. split; reflexivity. Qed.

Lemma opposing_force (w : Weather) (m v k : Q) :
  0 < v -> 0 < m -> 0 < k -> - v * BRAKING_FORCE_MAP w * m * k < 0.
Proof.
  intros Hv Hm Hk. pose proof (BRAKING_FORCE_MAP_pos w) as Hb.
  assert (H1 : 0 < v * BRAKING_FORCE_MAP w) by (apply Qmult_lt_0_compat; assumption).
  assert (H2 : 0 < v * BRAKING_FORCE_MAP w * m) by (apply Qmult_lt_0_compat; assumption).
  assert (H3 : 0 < v * BRAKING_FORCE_MAP w * m * k) by (apply Qmult_lt_0_compat; assumption).
  setoid_replace (- v * BRAKING_FORCE_MAP w * m * k)
    with (- (v * BRAKING_FORCE_MAP w * m * k)) by ring.
  lra.
Qed.

(** C3, as the script has it.  On a tick of an active run after the brake
    line has been crossed the force law is keyed on the signed velocity
    along the travel axis: above 0.5 the force
    -velocity * brakingCoefficient * mass * 0.001 is added to the car's
    force; above 0.01 and up to 0.5 the force
    -velocity * brakingCoefficient * mass * 0.01 is added; at 0.01 or below,
    every negative velocity included, no force is added.  In both regimes
    the force is negative while the velocity is positive, and the second
    multiplier is ten times the first. *)
Theorem braking_law_C3 (s : State) :
  isRunning s = true -> braking s = true ->
  let v := Vector.x (velocity (carBody s)) in
  let c := BRAKING_FORCE_MAP (currentWeather s) in
  let m := mass (carBody s) in
  let F := force (carBody s) in
  let F' := force (carBody (handleUpdate s)) in
  (5 # 10 < v -> F' = Vector.add F (Vector.mk (- v * c * m * k1) 0)) /\
  (1 # 100 < v -> v <= 5 # 10 -> F' = Vector.add F (Vector.mk (- v * c * m * k2) 0)) /\
  (v <= 1 # 100 -> F' = F) /\
  (1 # 100 < v -> 0 < m -> - v * c * m * k1 < 0 /\ - v * c * m * k2 < 0) /\
  k2 == 10 * k1.
Proof.
  intros R B v c m F F'. subst F'.
  rewrite (handleUpdate_running s R), check_stopped_force, (control_braking s B).
  fold v m. repeat apply conj.
  - intros H. unfold c. rewrite (braking_force_high _ _ _ H). reflexivity.
  - intros Hl Hh. unfold c. rewrite (braking_force_low _ _ _ Hl Hh). reflexivity.
  - intros H. rewrite (braking_force_none _ _ _ H). reflexivity.
  - intros Hv Hm. assert (Hp : 0 < v) by lra.
    split; apply opposing_force; first [assumption | reflexivity].
  - reflexivity.
Qed.

Lemma braking_law_C3_witness :
  (5 # 10 < 8 /\
   force (carBody (handleUpdate (braking_run 300 8))) =
   Vector.add Vector.zero (Vector.mk (- 8 * (15 # 100) * 1000 * k1) 0)) /\
  (1 # 100 < 1 # 10 /\
   force (carBody (handleUpdate (braking_run 300 (1 # 10)))) =
   Vector.add Vector.zero (Vector.mk (- (1 # 10) * (15 # 100) * 1000 * k2) 0)) /\
  (- (1) <= 1 # 100 /\
   force (carBody (handleUpdate (braking_run 300 (- (1))))) = Vector.zero) /\
  - 8 * (15 # 100) * 1000 * k1 < 0.
Proof.
  assert (R : forall v, isRunning (braking_run 300 v) = true) by reflexivity.
  assert (B : forall v, braking (braking_run 300 v) = true) by reflexivity.
  destruct (braking_law_C3 (braking_run 300 8) (R _) (B _)) as (H1 & _ & _ & H4 & _).
  destruct (braking_law_C3 (braking_run 300 (1 # 10)) (R _) (B _)) as (_ & H2 & _).
  destruct (braking_law_C3 (braking_run 300 (- (1))) (R _) (B _)) as (_ & _ & H3 & _).
  assert (A1 : 5 # 10 < 8) by closed.
  assert (A2 : 1 # 100 < 1 # 10) by closed.
  assert (A2' : 1 # 10 <= 5 # 10) by closed.
  assert (A3 : - (1) <= 1 # 100) by closed.
  assert (A4 : 1 # 100 < 8) by closed.
  assert (A5 : 0 < 1000) by closed.
  split; [split; [exact A1 | exact (H1 A1)] |].
  split; [split; [exact A2 | exact (H2 A2 A2')] |].
  split; [split; [exact A3 | exact (H3 A3)] |].
  exact (proj1 (H4 A4 A5)).
Defined.

(** C3 as stated fails on a car that moves backwards: after the brake line,
    at velocity -1 (magnitude 1, above 0.5), the tick adds no force, where
    the stated law asks for 0.15. *)
Lemma braking_law_C3_counterexample :
  let s := braking_run 300 (- (1)) in
  let v := Vector.x (velocity (carBody s)) in
  isRunning s = true /\ brakingStarted s = true /\
  5 # 10 < Math_abs v /\
  force (carBody (handleUpdate s)) = force (carBody s) /\
  ~ Vector.x (force (carBody (handleUpdate s))) ==
    Vector.x (force (carBody s))
    + - v * BRAKING_FORCE_MAP (currentWeather s) * mass (carBody s) * k1.
Proof.
  cbv zeta. repeat apply conj; closed.
Qed.

(** ** World reset *)

(** C2, as the script has it.  [resetWorld] puts the run flags back to the
    idle phase: braking not started, not running, not crashed, not
    finished.  It leaves the low-speed counter as it was; the counter is
    set to 0 by the next [startSimulation], which also clears the crashed
    and finished flags, before any tick of the new run reads it. *)
Theorem resetWorld_flags_C2 (s : State) :
  let s' := resetWorld s in
  brakingStarted s' = false /\ isRunning s' = false /\
  hasCrashed s' = false /\ hasFinished s' = false /\
  lowSpeedCounter s' = lowSpeedCounter s /\
  lowSpeedCounter (startSimulation s') = 0%Z /\
  hasCrashed (startSimulation s') = false /\
  hasFinished (startSimulation s') = false /\
  isRunning (startSimulation s') = true.
Proof. cbv zeta. repeat split. Qed.

(** C2 as stated fails on the counter: a run that has counted one slow
    tick and is then reset keeps the count 1. *)
Lemma resetWorld_flags_C2_counterexample :
  let s := run [BeforeUpdate] (braking_run 300 (1 # 10)) in
  lowSpeedCounter s = 1%Z /\ lowSpeedCounter (resetWorld s) <> 0%Z.
Proof. cbv zeta. split; closed. Qed.

(** ** The recorded distance *)

Lemma distance_nonneg (s : State) :
  0 <= Math_max 0 (Vector.x (position (carBody s)) - BRAKE_LINE_X) / SCALE.
Proof.
  apply Qle_shift_div_l; [reflexivity|].
  rewrite Qmult_0_l. apply Math_max_nonneg.
Qed.

(** C5.  The finalization of a run puts on top of the history a row whose
    distance text is toFixed(1) of the Number max(0, position - brake
    line) / 10, for either value of crashed.  That Number [q] is the double
    nearest to the exact quotient, within the fraction 2^-53 of it.  The
    text is the one-decimal text of [n] tenths and reads back as [n],
    where [n] is a non-negative integer within one half of ten times [q]
    (the upper one on a tie), so what is recorded is the distance in
    metres rounded to one decimal and never negative. *)
Theorem recorded_distance_C5 (c : bool) (s : State) :
  hasFinished s = false ->
  let d := Math_max 0 (Vector.x (position (carBody s)) - BRAKE_LINE_X) in
  let q := Number_div d SCALE in
  exists n : Z,
    history_body (document (finishSimulation c s)) =
      mkRow (currentSpeed s) (currentWeather s) (toFixed1 q) c
      :: history_body (document s) /\
    toFixed1 q = fixed1_of_tenths n /\
    tenths_of_fixed1 (toFixed1 q) = Some n /\
    (0 <= n)%Z /\
    q * 10 - (1 # 2) < inject_Z n /\ inject_Z n <= q * 10 + (1 # 2) /\
    d / SCALE - d / SCALE * (1 # 9007199254740992) <= q /\
    q <= d / SCALE + d / SCALE * (1 # 9007199254740992) /\
    0 <= d.
Proof.
  intros H d q. exists (nearest_integer (q * 10)).
  pose proof (distance_nonneg s) as Hd. fold d in Hd.
  pose proof (Math_max_nonneg (Vector.x (position (carBody s)) - BRAKE_LINE_X)) as Hp.
  fold d in Hp.
  destruct (round_binary64_error (d / SCALE) Hd) as [Elo Ehi].
  pose proof (round_binary64_nonneg (d / SCALE) Hd) as Hq.
  fold (Number_div d SCALE) in Elo, Ehi, Hq. fold q in Elo, Ehi, Hq.
  destruct (finishSimulation_flags c s H) as (_ & _ & _ & _ & ->).
  destruct (nearest_integer_bounds (q * 10)) as [Hlo Hhi].
  assert (Hn : (0 <= nearest_integer (q * 10))%Z)
    by (apply nearest_integer_nonneg; lra).
  repeat apply conj; try assumption.
  - reflexivity.
  - now apply toFixed1_nonneg.
  - rewrite (toFixed1_nonneg q Hq). now apply tenths_of_fixed1_of_tenths.
Qed.

Lemma recorded_distance_C5_witness :
  hasFinished (braking_run 300 8) = false /\
  exists n : Z,
    history_body (document (finishSimulation false (braking_run 300 8))) =
      [mkRow kmh30 sunny "15.0" false] /\
    tenths_of_fixed1 "15.0" = Some n /\ (0 <= n)%Z.
Proof.
  assert (H : hasFinished (braking_run 300 8) = false) by closed.
  assert (T : toFixed1
                (Number_div
                   (Math_max 0
                      (Vector.x (position (carBody (braking_run 300 8)))
                       - BRAKE_LINE_X)) SCALE) = "15.0"%string) by closed.
  split; [exact H |].
  destruct (recorded_distance_C5 false (braking_run 300 8) H)
    as (n & Hrow & _ & Hread & Hn & _).
  rewrite T in Hrow, Hread.
  exists n. split; [exact Hrow | split; [exact Hread | exact Hn]].
Defined.

(** A stop half a pixel short of a tenth: at 153.5 the quotient 3.5 / 10
    is the double just below 0.35 and the row reads 0.3; at 160 it reads
    1.0. *)
Example distanceM_half_pixel :
  distanceM (braking_run (1535 # 10) 8) = "0.3"%string /\
  distanceM (braking_run (1515 # 10) 8) = "0.1"%string /\
  distanceM (braking_run (1585 # 10) 8) = "0.8"%string /\
  distanceM (braking_run 160 8) = "1.0"%string.
Proof. repeat split; closed. Qed.

(** ** Idempotent finalization *)

(** C6.  Once a run has been finalized with some value of crashed, a second
    finalize call with the same value returns the state unchanged, also
    after the backend has moved the car in between; the run has exactly
    one history row, the one the first call added. *)
Theorem finalize_idempotent_C6 (c : bool) (s : State) :
  hasFinished s = false ->
  let s1 := finishSimulation c s in
  finishSimulation c s1 = s1 /\
  (forall p v, finishSimulation c (integrate p v s1) = integrate p v s1) /\
  history_body (document (finishSimulation c s1)) =
    mkRow (currentSpeed s) (currentWeather s) (distanceM s) c
    :: history_body (document s) /\
  List.length (history_body (document (finishSimulation c s1))) =
    S (List.length (history_body (document s))).
Proof.
  intros H s1.
  destruct (finishSimulation_flags c s H) as (Hf & _ & Hc & _ & Hh).
  fold s1 in Hf, Hc, Hh.
  assert (Hc' : c = true -> hasCrashed s1 = true) by (intros ->; exact Hc).
  assert (E : finishSimulation c s1 = s1) by (now apply finishSimulation_ignored).
  repeat apply conj.
  - exact E.
  - intros p v. apply finishSimulation_ignored; [exact Hf | exact Hc'].
  - rewrite E. exact Hh.
  - rewrite E, Hh. reflexivity.
Qed.

Lemma finalize_idempotent_C6_witness :
  hasFinished (braking_run 300 8) = false /\
  finishSimulation true (finishSimulation true (braking_run 300 8)) =
    finishSimulation true (braking_run 300 8) /\
  List.length
    (history_body
       (document (finishSimulation true (finishSimulation true (braking_run 300 8)))))
  = 1%nat.
Proof.
  assert (H : hasFinished (braking_run 300 8) = false) by closed.
  destruct (finalize_idempotent_C6 true (braking_run 300 8) H) as (E & _ & _ & L).
  split; [exact H | split; [exact E | exact L]].
Defined.

(** ** Collisions *)

Lemma car_and_dummy_iff (p : Pair) : car_and_dummy p = true <-> car_dummy_pair p.
Proof.
  unfold car_and_dummy, car_dummy_pair.
  rewrite orb_true_iff, !andb_true_iff, !String.eqb_eq. reflexivity.
Qed.

Lemma collision_loop_spec (pairs : list Pair) (s : State) :
  collision_loop pairs s =
  if existsb car_and_dummy pairs then finishSimulation true (set_hasCrashed s true)
  else s.
Proof.
  induction pairs as [| p pairs IH]; simpl; [reflexivity|].
  destruct (car_and_dummy p); simpl; [reflexivity | exact IH].
Qed.

Lemma handleCollision_spec (pairs : list Pair) (s : State) :
  handleCollision pairs s =
  if negb (hasCrashed s) && existsb car_and_dummy pairs
  then finishSimulation true (set_hasCrashed s true)
  else s.
Proof.
  unfold handleCollision. rewrite collision_loop_spec.
  destruct (hasCrashed s); reflexivity.
Qed.

(** A collision that arrives after the run was finalized as not crashed
    only raises the flag: [hasCrashed] is already true when
    [finishSimulation] looks at it, so the call is treated as a duplicate. *)
Lemma handleCollision_late (pairs : list Pair) (s : State) :
  hasFinished s = true -> hasCrashed s = false ->
  existsb car_and_dummy pairs = true ->
  handleCollision pairs s = set_hasCrashed s true.
Proof.
  intros F C E. rewrite handleCollision_spec, C, E. simpl.
  apply finishSimulation_ignored; [exact F | reflexivity].
Qed.

Lemma finishSimulation_false_hasCrashed (s : State) :
  hasCrashed (finishSimulation false s) = hasCrashed s.
Proof.
  unfold finishSimulation. destruct (hasFinished s); reflexivity.
Qed.

Lemma check_stopped_hasCrashed (s : State) :
  hasCrashed (check_stopped s) = hasCrashed s.
Proof.
  unfold check_stopped. destruct (_ && _); [|reflexivity].
  destruct (Qlt_bool _ (3 # 10)); [|reflexivity].
  destruct (_ || _); [|reflexivity].
  rewrite finishSimulation_false_hasCrashed. reflexivity.
Qed.

Lemma handleUpdate_hasCrashed (s : State) :
  hasCrashed (handleUpdate s) = hasCrashed s.
Proof.
  destruct (isRunning s) eqn:R.
  - rewrite (handleUpdate_running s R), check_stopped_hasCrashed.
    now destruct (control_frame s) as (_ & -> & _).
  - now rewrite (handleUpdate_not_running s R).
Qed.

Lemma run_app (es1 es2 : list Event) (s : State) :
  run (es1 ++ es2) s = run es2 (run es1 s).
Proof.
  revert s. induction es1 as [| e es1 IH]; intros s; simpl; [reflexivity | apply IH].
Qed.

(** Only a collision of the car with the dummy raises the flag. *)
Lemma step_raises_hasCrashed (e : Event) (s : State) :
  hasCrashed s = false -> hasCrashed (step e s) = true ->
  exists pairs, e = CollisionStart pairs /\ existsb car_and_dummy pairs = true.
Proof.
  intros C H. destruct e as [p v | | pairs | | | sp | w | d | iw]; simpl in H.
  - congruence.
  - rewrite handleUpdate_hasCrashed in H. congruence.
  - exists pairs. split; [reflexivity|].
    rewrite handleCollision_spec in H.
    destruct (existsb car_and_dummy pairs); [reflexivity|].
    rewrite andb_false_r in H. congruence.
  - unfold startSimulation in H. destruct (isRunning s); simpl in H; congruence.
  - discriminate H.
  - unfold selectSpeed in H. destruct (isRunning s); simpl in H; congruence.
  - unfold selectWeather in H. destruct (isRunning s); simpl in H; congruence.
  - unfold selectDistance in H. destruct (isRunning s); simpl in H; congruence.
  - congruence.
Qed.

Lemma list_cons_neq {A : Type} (a : A) (l : list A) : a :: l <> l.
Proof.
  intros H. apply (f_equal (@List.length A)) in H. simpl in H. lia.
Qed.

Lemma list_neq_cons {A : Type} (a : A) (l : list A) : l <> a :: l.
Proof. intros H. symmetry in H. now apply list_cons_neq in H. Qed.

Lemma check_stopped_history (s : State) :
  history_body (document (check_stopped s)) = history_body (document s) \/
  exists r, row_crashed r = false /\
            history_body (document (check_stopped s)) = r :: history_body (document s).
Proof.
  unfold check_stopped. destruct (_ && _) eqn:G; [| now left].
  destruct (Qlt_bool _ (3 # 10)); [| now left].
  destruct (_ || _); [| now left].
  right. apply andb_true_iff in G. destruct G as [_ F]. apply negb_true_iff in F.
  set (t := set_carBody _ _).
  assert (Ft : hasFinished t = false) by exact F.
  destruct (finishSimulation_flags false t Ft) as (_ & _ & _ & _ & ->).
  eexists. split; [| reflexivity]. reflexivity.
Qed.

Lemma handleUpdate_history (s : State) :
  history_body (document (handleUpdate s)) = history_body (document s) \/
  exists r, row_crashed r = false /\
            history_body (document (handleUpdate s)) = r :: history_body (document s).
Proof.
  destruct (isRunning s) eqn:R.
  - rewrite (handleUpdate_running s R).
    destruct (control_frame s) as (_ & _ & _ & _ & _ & <- & _).
    apply check_stopped_history.
  - rewrite (handleUpdate_not_running s R). now left.
Qed.

(** Only a collision of the car with the dummy adds a crash row. *)
Lemma step_adds_crash_row (e : Event) (s : State) (r : Row) :
  history_body (document (step e s)) = r :: history_body (document s) ->
  row_crashed r = true ->
  exists pairs, e = CollisionStart pairs /\ existsb car_and_dummy pairs = true.
Proof.
  intros H Hr.
  destruct e as [p v | | pairs | | | sp | w | d | iw]; simpl in H.
  - now apply list_neq_cons in H.
  - exfalso. destruct (handleUpdate_history s) as [E | (r' & Hr' & E)]; rewrite E in H.
    + now apply list_neq_cons in H.
    + injection H as Hrow. congruence.
  - exists pairs. split; [reflexivity|].
    rewrite handleCollision_spec in H.
    destruct (existsb car_and_dummy pairs); [reflexivity|].
    rewrite andb_false_r in H. now apply list_neq_cons in H.
  - unfold startSimulation in H. destruct (isRunning s); simpl in H;
      now apply list_neq_cons in H.
  - now apply list_neq_cons in H.
  - unfold selectSpeed in H. destruct (isRunning s); simpl in H;
      now apply list_neq_cons in H.
  - unfold selectWeather in H. destruct (isRunning s); simpl in H;
      now apply list_neq_cons in H.
  - unfold selectDistance in H. destruct (isRunning s); simpl in H;
      now apply list_neq_cons in H.
  - now apply list_neq_cons in H.
Qed.

Lemma existsb_car_dummy (pairs : list Pair) :
  existsb car_and_dummy pairs = true <-> exists p, In p pairs /\ car_dummy_pair p.
Proof.
  rewrite existsb_exists. split; intros (p & Hin & Hp); exists p; split;
    try assumption; now apply car_and_dummy_iff.
Qed.

Lemma finishSimulation_class (c : bool) (s : State) :
  overlay_className (document (finishSimulation c s)) = class_crash ->
  overlay_className (document s) = class_crash \/ c = true.
Proof.
  unfold finishSimulation.
  destruct (hasFinished s), c, (hasCrashed s); simpl; intros H;
    first [now left | now right | discriminate H].
Qed.

Lemma check_stopped_class (s : State) :
  overlay_className (document (check_stopped s)) = class_crash ->
  overlay_className (document s) = class_crash.
Proof.
  unfold check_stopped. destruct (_ && _); [| trivial].
  destruct (Qlt_bool _ (3 # 10)); [| trivial].
  destruct (_ || _); [| trivial].
  intros H. apply finishSimulation_class in H. destruct H as [H | H];
    [exact H | discriminate H].
Qed.

(** Only a collision of the car with the dummy turns the overlay to the
    crash style. *)
Lemma step_shows_crash (e : Event) (s : State) :
  overlay_className (document s) <> class_crash ->
  overlay_className (document (step e s)) = class_crash ->
  exists pairs, e = CollisionStart pairs /\ existsb car_and_dummy pairs = true.
Proof.
  intros N H. destruct e as [p v | | pairs | | | sp | w | d | iw]; simpl in H.
  - contradiction.
  - exfalso. apply N. destruct (isRunning s) eqn:R.
    + rewrite (handleUpdate_running s R) in H. apply check_stopped_class in H.
      now destruct (control_frame s) as (_ & _ & _ & _ & _ & <- & _).
    + now rewrite (handleUpdate_not_running s R) in H.
  - exists pairs. split; [reflexivity|].
    rewrite handleCollision_spec in H.
    destruct (existsb car_and_dummy pairs); [reflexivity|].
    rewrite andb_false_r in H. contradiction.
  - unfold startSimulation in H. destruct (isRunning s); simpl in H; contradiction.
  - discriminate H.
  - unfold selectSpeed in H. destruct (isRunning s); simpl in H;
      [contradiction | discriminate H].
  - unfold selectWeather in H. destruct (isRunning s); simpl in H;
      [contradiction | discriminate H].
  - unfold selectDistance in H. destruct (isRunning s); simpl in H;
      [contradiction | discriminate H].
  - contradiction.
Qed.

Lemma raised_by_last_collision (es : list Event) :
  forall s : State,
    hasCrashed s = false -> hasCrashed (run es s) = true ->
    exists pre pairs post,
      es = pre ++ CollisionStart pairs :: post /\
      existsb car_and_dummy pairs = true /\
      hasCrashed (run pre s) = false /\
      forall k, hasCrashed (run (pre ++ CollisionStart pairs :: firstn k post) s) = true.
Proof.
  induction es as [| e es IH] using rev_ind; intros s C H.
  - simpl in H. congruence.
  - rewrite run_app in H. simpl in H.
    destruct (hasCrashed (run es s)) eqn:E.
    + destruct (IH s C E) as (pre & pairs & post & -> & Hp & Hpre & Hk).
      exists pre, pairs, (post ++ [e]). repeat apply conj.
      * rewrite <- app_assoc. reflexivity.
      * exact Hp.
      * exact Hpre.
      * intros k. destruct (Nat.le_gt_cases k (List.length post)) as [Hle | Hgt].
        -- rewrite firstn_app.
           replace (k - List.length post)%nat with 0%nat by lia.
           simpl. rewrite app_nil_r. apply Hk.
        -- rewrite firstn_all2 by (rewrite length_app; simpl; lia).
           change (pre ++ CollisionStart pairs :: post ++ [e])
             with (pre ++ (CollisionStart pairs :: post) ++ [e]).
           rewrite app_assoc, run_app. simpl. exact H.
    + destruct (step_raises_hasCrashed e (run es s) E H) as (pairs & -> & Hp).
      exists es, pairs, []. repeat apply conj; try assumption; try reflexivity.
      intros k. rewrite firstn_nil, run_app. simpl. exact H.
Qed.

(** C7.  The crashed flag goes from false to true only on a collision
    notification that lists the car and the dummy, in either order: over
    any sequence of events that ends with the flag up, there is such a
    notification after which the flag has stayed up to the end (so no
    start or reset has come since), and before which it was down.  The
    same holds, event by event, for the two places a crash is reported: a
    history row marked as crash and the crash style of the overlay. *)
Theorem crash_needs_collision_C7 (s : State) :
  (forall es : list Event,
     hasCrashed s = false -> hasCrashed (run es s) = true ->
     exists pre pairs post,
       es = pre ++ CollisionStart pairs :: post /\
       (exists p, In p pairs /\ car_dummy_pair p) /\
       hasCrashed (run pre s) = false /\
       forall k,
         hasCrashed (run (pre ++ CollisionStart pairs :: firstn k post) s) = true) /\
  (forall e : Event,
     hasCrashed s = false -> hasCrashed (step e s) = true -> car_dummy_collision e) /\
  (forall (e : Event) (r : Row),
     history_body (document (step e s)) = r :: history_body (document s) ->
     row_crashed r = true -> car_dummy_collision e) /\
  (forall e : Event,
     overlay_className (document s) <> class_crash ->
     overlay_className (document (step e s)) = class_crash -> car_dummy_collision e).
Proof.
  repeat apply conj.
  - intros es C H.
    destruct (raised_by_last_collision es s C H) as (pre & pairs & post & E & Hp & R).
    exists pre, pairs, post. split; [exact E |]. split; [| exact R].
    now apply existsb_car_dummy.
  - intros e C H. destruct (step_raises_hasCrashed e s C H) as (pairs & E & Hp).
    exists pairs. split; [exact E | now apply existsb_car_dummy].
  - intros e r H Hr. destruct (step_adds_crash_row e s r H Hr) as (pairs & E & Hp).
    exists pairs. split; [exact E | now apply existsb_car_dummy].
  - intros e N H. destruct (step_shows_crash e s N H) as (pairs & E & Hp).
    exists pairs. split; [exact E | now apply existsb_car_dummy].
Qed.

Lemma crash_needs_collision_C7_witness :
  let s := braking_run 300 8 in
  let e := CollisionStart [mkPair "brakeLine" "car"; mkPair "dummy" "car"] in
  hasCrashed s = false /\ hasCrashed (step e s) = true /\
  history_body (document (step e s)) =
    mkRow kmh30 sunny "15.0" true :: history_body (document s) /\
  car_dummy_collision e.
Proof.
  cbv zeta.
  assert (C : hasCrashed (braking_run 300 8) = false) by closed.
  assert (H : hasCrashed
                (step (CollisionStart [mkPair "brakeLine" "car"; mkPair "dummy" "car"])
                      (braking_run 300 8)) = true) by closed.
  split; [exact C | split; [exact H | split; [closed |]]].
  destruct (crash_needs_collision_C7 (braking_run 300 8)) as (_ & Hstep & _).
  exact (Hstep _ C H).
Defined.

(** ** After finalization *)

Lemma finishSimulation_idle (c : bool) (s : State) :
  (hasFinished s = true -> isRunning s = false) ->
  isRunning (finishSimulation c s) = false.
Proof.
  intros I. destruct (hasFinished s) eqn:F.
  - specialize (I eq_refl). unfold finishSimulation. rewrite F.
    destruct c, (hasCrashed s); simpl; exact I.
  - now destruct (finishSimulation_flags c s F) as (_ & -> & _).
Qed.

(** A finished run is not running: the invariant behind the early return
    of the per-tick callback. *)
Lemma step_finished_idle (e : Event) (s : State) :
  (hasFinished s = true -> isRunning s = false) ->
  hasFinished (step e s) = true -> isRunning (step e s) = false.
Proof.
  intros I. destruct e as [p v | | pairs | | | sp | w | d | iw]; simpl.
  - exact I.
  - destruct (isRunning s) eqn:R.
    + rewrite (handleUpdate_running s R).
      destruct (control_frame s) as (_ & _ & Hf & Hr & _).
      unfold check_stopped. destruct (_ && _) eqn:G.
      * apply andb_true_iff in G. destruct G as [_ F]. apply negb_true_iff in F.
        destruct (Qlt_bool _ (3 # 10)).
        -- destruct (_ || _).
           ++ intros _. apply finishSimulation_idle. simpl. congruence.
           ++ simpl. congruence.
        -- simpl. congruence.
      * rewrite Hf, Hr. intros F. specialize (I F). congruence.
    + rewrite (handleUpdate_not_running s R). intros _. exact R.
  - rewrite handleCollision_spec. destruct (_ && _).
    + intros _. apply finishSimulation_idle. exact I.
    + exact I.
  - unfold startSimulation. destruct (isRunning s) eqn:R; simpl;
      [rewrite R; exact I | discriminate].
  - discriminate.
  - unfold selectSpeed. destruct (isRunning s) eqn:R; simpl;
      [rewrite R; exact I | discriminate].
  - unfold selectWeather. destruct (isRunning s) eqn:R; simpl;
      [rewrite R; exact I | discriminate].
  - unfold selectDistance. destruct (isRunning s) eqn:R; simpl;
      [rewrite R; exact I | discriminate].
  - exact I.
Qed.

Lemma run_finished_idle (es : list Event) :
  forall s : State,
    (hasFinished s = true -> isRunning s = false) ->
    hasFinished (run es s) = true -> isRunning (run es s) = false.
Proof.
  induction es as [| e es IH]; intros s I; simpl; [exact I |].
  apply IH. now apply step_finished_idle.
Qed.

(** On a finished, idle run the backend events, the tick and a collision
    leave the flags finished and idle and do not touch the page. *)
Lemma step_after_finish (e : Event) (s : State) :
  hasFinished s = true -> isRunning s = false -> no_start_or_reset e = true ->
  hasFinished (step e s) = true /\ isRunning (step e s) = false /\
  document (step e s) = document s.
Proof.
  intros F R Q. destruct e as [p v | | pairs | | | sp | w | d | iw];
    try discriminate Q; simpl.
  - repeat split; assumption.
  - rewrite (handleUpdate_not_running s R). repeat split; assumption.
  - rewrite handleCollision_spec. destruct (_ && _).
    + rewrite finishSimulation_ignored by (simpl; auto).
      repeat split; assumption.
    + repeat split; assumption.
  - repeat split; assumption.
Qed.

Lemma run_after_finish (es : list Event) :
  forall s : State,
    hasFinished s = true -> isRunning s = false ->
    forallb no_start_or_reset es = true ->
    hasFinished (run es s) = true /\ isRunning (run es s) = false /\
    document (run es s) = document s.
Proof.
  induction es as [| e es IH]; intros s F R Q; simpl.
  - repeat split; assumption.
  - simpl in Q. apply andb_true_iff in Q. destruct Q as [Qe Qes].
    destruct (step_after_finish e s F R Qe) as (F' & R' & D').
    destruct (IH (step e s) F' R' Qes) as (? & ? & D'').
    repeat split; try assumption. now rewrite D''.
Qed.

(** C10.  In every state reached from one where finished implies idle (the
    state [init] leaves is one), a finished run is not running.  So once
    [finishSimulation] has been called, the finished flag is set and the
    running flag is false, and they stay so over any later events other
    than a start or a world rebuild; on each such state the per-tick
    callback returns the state as it is: the car (velocity, force) and
    the camera are what they were. *)
Theorem finalized_ticks_idle_C10 (s : State) (es : list Event) (c : bool)
    (es' : list Event) :
  (hasFinished s = true -> isRunning s = false) ->
  forallb no_start_or_reset es' = true ->
  let f := finishSimulation c (run es s) in
  let u := run es' f in
  (hasFinished (run es s) = true -> isRunning (run es s) = false) /\
  hasFinished f = true /\ isRunning f = false /\
  hasFinished u = true /\ isRunning u = false /\
  handleUpdate u = u /\
  velocity (carBody (handleUpdate u)) = velocity (carBody u) /\
  force (carBody (handleUpdate u)) = force (carBody u) /\
  bounds (render (handleUpdate u)) = bounds (render u).
Proof.
  intros I Q f u.
  pose proof (run_finished_idle es s I) as It.
  assert (Ff : hasFinished f = true) by apply finishSimulation_finished.
  assert (Rf : isRunning f = false) by (apply finishSimulation_idle; exact It).
  destruct (run_after_finish es' f Ff Rf Q) as (Fu & Ru & _). fold u in Fu, Ru.
  assert (E : handleUpdate u = u) by (now apply handleUpdate_not_running).
  repeat apply conj; try assumption; rewrite E; reflexivity.
Qed.

Lemma finalized_ticks_idle_C10_witness :
  let es := [ClickStart; Integrate (on_road 300) (along 8)] in
  let es' := [Integrate (on_road 320) (along 5); BeforeUpdate;
              CollisionStart [mkPair "car" "dummy"]; BeforeUpdate] in
  let u := run es' (finishSimulation false (run es (init 1200))) in
  (hasFinished (init 1200) = true -> isRunning (init 1200) = false) /\
  forallb no_start_or_reset es' = true /\
  handleUpdate u = u /\ velocity (carBody u) = along 5.
Proof.
  cbv zeta.
  assert (I : hasFinished (init 1200) = true -> isRunning (init 1200) = false)
    by (intros _; closed).
  assert (Q : forallb no_start_or_reset
                [Integrate (on_road 320) (along 5); BeforeUpdate;
                 CollisionStart [mkPair "car" "dummy"]; BeforeUpdate] = true)
    by closed.
  split; [exact I | split; [exact Q | split; [| closed]]].
  apply (finalized_ticks_idle_C10 (init 1200)
           [ClickStart; Integrate (on_road 300) (along 8)] false _ I Q).
Defined.

(** ** A collision after the stop *)

(** C1, as the script has it.  When a run has been finalized as not
    crashed and, after any events other than a start or a world rebuild, a
    collision of the car with the dummy is notified, the crashed flag is
    true and the run stays finished; the history is not touched, so the
    run still has exactly one row, the one written at finalization, with
    crashed = false and the distance recorded then. *)
Theorem late_collision_C1 (s : State) (es : list Event) (pairs : list Pair) :
  hasFinished s = false -> hasCrashed s = false ->
  forallb no_start_or_reset es = true ->
  (exists p, In p pairs /\ car_dummy_pair p) ->
  let s1 := finishSimulation false s in
  let s2 := run (es ++ [CollisionStart pairs]) s1 in
  hasFinished s1 = true /\ hasCrashed s1 = false /\
  hasCrashed s2 = true /\ hasFinished s2 = true /\
  history_body (document s2) = history_body (document s1) /\
  history_body (document s1) =
    mkRow (currentSpeed s) (currentWeather s) (distanceM s) false
    :: history_body (document s).
Proof.
  intros F C Q P s1 s2.
  destruct (finishSimulation_flags false s F) as (F1 & R1 & C1 & _ & H1).
  fold s1 in F1, R1, C1, H1. simpl in C1. rewrite C in C1.
  destruct (run_after_finish es s1 F1 R1 Q) as (Fe & Re & De).
  assert (E : s2 = handleCollision pairs (run es s1))
    by (unfold s2; rewrite run_app; reflexivity).
  assert (L : hasCrashed s2 = true /\ hasFinished s2 = true /\
              document s2 = document (run es s1)).
  { rewrite E. destruct (hasCrashed (run es s1)) eqn:Ce.
    - unfold handleCollision. rewrite Ce. repeat split; assumption.
    - rewrite (handleCollision_late pairs (run es s1) Fe Ce)
        by (now apply existsb_car_dummy).
      repeat split. exact Fe. }
  destruct L as (C2 & F2 & D2).
  repeat apply conj; try assumption. now rewrite D2, De.
Qed.

Lemma late_collision_C1_witness :
  let s := braking_run 300 (4 # 100) in
  let es := [Integrate (on_road 310) (along 0); BeforeUpdate] in
  let pairs := [mkPair "car" "dummy"] in
  let s2 := run (es ++ [CollisionStart pairs]) (finishSimulation false s) in
  hasFinished s = false /\ hasCrashed s = false /\
  forallb no_start_or_reset es = true /\
  (exists p, In p pairs /\ car_dummy_pair p) /\
  hasCrashed s2 = true /\
  history_body (document s2) = [mkRow kmh30 sunny "15.0" false].
Proof.
  cbv zeta.
  assert (F : hasFinished (braking_run 300 (4 # 100)) = false) by closed.
  assert (C : hasCrashed (braking_run 300 (4 # 100)) = false) by closed.
  assert (Q : forallb no_start_or_reset
                [Integrate (on_road 310) (along 0); BeforeUpdate] = true) by closed.
  assert (P : exists p, In p [mkPair "car" "dummy"] /\ car_dummy_pair p).
  { exists (mkPair "car" "dummy"). split; [now left | left; split; reflexivity]. }
  destruct (late_collision_C1 (braking_run 300 (4 # 100)) _ _ F C Q P)
    as (_ & _ & C2 & _ & H2 & H1).
  split; [exact F | split; [exact C | split; [exact Q | split; [exact P |]]]].
  split; [exact C2 |].
  rewrite H2, H1. closed.
Defined.

(** C1 as stated fails on the history: a run that stops at 15.0 m and is
    then hit by the dummy, the car by then at 16.0 m, keeps its single row
    as it was written, marked safe; no row of the history shows a crash. *)
Lemma late_collision_C1_counterexample :
  let s1 := finishSimulation false (braking_run 300 (4 # 100)) in
  let s2 := run [Integrate (on_road 310) (along 0);
                 CollisionStart [mkPair "car" "dummy"]] s1 in
  hasFinished s1 = true /\ hasCrashed s1 = false /\
  distanceM s2 = "16.0"%string /\
  history_body (document s2) = [mkRow kmh30 sunny "15.0" false] /\
  ~ (exists r, In r (history_body (document s2)) /\ row_crashed r = true).
Proof.
  cbv zeta.
  assert (H : history_body
                (document
                   (run [Integrate (on_road 310) (along 0);
                         CollisionStart [mkPair "car" "dummy"]]
                        (finishSimulation false (braking_run 300 (4 # 100)))))
              = [mkRow kmh30 sunny "15.0" false]) by closed.
  split; [closed | split; [closed | split; [closed | split; [exact H |]]]].
  intros (r & Hin & Hr). rewrite H in Hin.
  destruct Hin as [<- | []]. discriminate Hr.
Qed.

(** ** The start button *)

Lemma finishSimulation_still_running (c : bool) (s : State) :
  isRunning (finishSimulation c s) = true -> isRunning s = true.
Proof.
  unfold finishSimulation.
  destruct (hasFinished s), c, (hasCrashed s); simpl; intros H;
    first [exact H | discriminate H].
Qed.

Lemma check_stopped_start_btn (s : State) :
  start_btn_disabled (document (check_stopped s)) = start_btn_disabled (document s) /\
  (isRunning (check_stopped s) = true -> isRunning s = true).
Proof.
  unfold check_stopped. destruct (_ && _); [| now split].
  destruct (Qlt_bool _ (3 # 10)); [| now split].
  destruct (_ || _); [| now split].
  split.
  - rewrite finishSimulation_start_btn. reflexivity.
  - intros H. now apply finishSimulation_still_running in H.
Qed.

Lemma handleUpdate_start_btn (s : State) :
  start_btn_disabled (document (handleUpdate s)) = start_btn_disabled (document s) /\
  (isRunning (handleUpdate s) = true -> isRunning s = true).
Proof.
  destruct (isRunning s) eqn:R.
  - rewrite (handleUpdate_running s R).
    destruct (check_stopped_start_btn (control s)) as (-> & _).
    destruct (control_frame s) as (_ & _ & _ & _ & _ & -> & _). now split.
  - rewrite (handleUpdate_not_running s R). rewrite R. now split.
Qed.

Lemma handleCollision_start_btn (pairs : list Pair) (s : State) :
  start_btn_disabled (document (handleCollision pairs s)) =
    start_btn_disabled (document s) /\
  (isRunning (handleCollision pairs s) = true -> isRunning s = true).
Proof.
  rewrite handleCollision_spec. destruct (_ && _); [| now split].
  split.
  - rewrite finishSimulation_start_btn. reflexivity.
  - intros H. now apply finishSimulation_still_running in H.
Qed.

Lemma step_running_disabled (e : Event) (s : State) :
  (isRunning s = true -> start_btn_disabled (document s) = true) ->
  isRunning (step e s) = true -> start_btn_disabled (document (step e s)) = true.
Proof.
  intros I. destruct e as [p v | | pairs | | | sp | w | d | iw]; simpl.
  - exact I.
  - destruct (handleUpdate_start_btn s) as (-> & H). intros R. auto.
  - destruct (handleCollision_start_btn pairs s) as (-> & H). intros R. auto.
  - unfold startSimulation. destruct (isRunning s) eqn:R; simpl;
      [rewrite R; exact I | reflexivity].
  - discriminate.
  - unfold selectSpeed. destruct (isRunning s) eqn:R; simpl;
      [rewrite R; exact I | discriminate].
  - unfold selectWeather. destruct (isRunning s) eqn:R; simpl;
      [rewrite R; exact I | discriminate].
  - unfold selectDistance. destruct (isRunning s) eqn:R; simpl;
      [rewrite R; exact I | discriminate].
  - exact I.
Qed.

Lemma run_running_disabled (es : list Event) :
  forall s : State,
    (isRunning s = true -> start_btn_disabled (document s) = true) ->
    isRunning (run es s) = true -> start_btn_disabled (document (run es s)) = true.
Proof.
  induction es as [| e es IH]; intros s I; simpl; [exact I |].
  apply IH. now apply step_running_disabled.
Qed.

(** C9, as the script has it.  In every state reached from one where
    running implies disabled (the state [init] leaves is one), the start
    button is disabled while the run is active.  [startSimulation]
    disables it; the tick, a collision notification and
    [finishSimulation], the only ways into a terminal phase, leave it as
    it is, so it stays disabled when the run ends; [resetWorld], which the
    reset button and an accepted selection call, enables it. *)
Theorem start_button_C9 (s : State) (es : list Event) :
  (isRunning s = true -> start_btn_disabled (document s) = true) ->
  let t := run es s in
  (isRunning t = true -> start_btn_disabled (document t) = true) /\
  (isRunning t = false ->
   isRunning (startSimulation t) = true /\
   start_btn_disabled (document (startSimulation t)) = true) /\
  (forall c, start_btn_disabled (document (finishSimulation c t)) =
             start_btn_disabled (document t)) /\
  start_btn_disabled (document (handleUpdate t)) = start_btn_disabled (document t) /\
  (forall pairs, start_btn_disabled (document (handleCollision pairs t)) =
                 start_btn_disabled (document t)) /\
  start_btn_disabled (document (resetWorld t)) = false.
Proof.
  intros I t. repeat apply conj.
  - apply run_running_disabled. exact I.
  - intros H. unfold startSimulation. rewrite H. split; reflexivity.
  - intros c. apply finishSimulation_start_btn.
  - apply handleUpdate_start_btn.
  - intros pairs. apply handleCollision_start_btn.
  - reflexivity.
Qed.

Lemma start_button_C9_witness :
  let t := run [ClickStart; Integrate (on_road 300) (along 8); BeforeUpdate]
               (init 1200) in
  (isRunning (init 1200) = true -> start_btn_disabled (document (init 1200)) = true) /\
  isRunning t = true /\ start_btn_disabled (document t) = true /\
  start_btn_disabled (document (finishSimulation false t)) = true.
Proof.
  cbv zeta.
  assert (I : isRunning (init 1200) = true ->
              start_btn_disabled (document (init 1200)) = true)
    by (intros H; vm_compute in H; discriminate H).
  destruct (start_button_C9 (init 1200)
              [ClickStart; Integrate (on_road 300) (along 8); BeforeUpdate] I)
    as (Hrun & _ & Hfin & _).
  assert (R : isRunning
                (run [ClickStart; Integrate (on_road 300) (along 8); BeforeUpdate]
                     (init 1200)) = true) by closed.
  split; [exact I | split; [exact R | split; [exact (Hrun R) |]]].
  rewrite Hfin. exact (Hrun R).
Defined.

(** C9 as stated fails on the terminal phase: when the run has stopped
    (finished, no longer running) the start button is still disabled. *)
Lemma start_button_C9_counterexample :
  let t := run [BeforeUpdate] (braking_run 300 (4 # 100)) in
  hasFinished t = true /\ isRunning t = false /\ hasCrashed t = false /\
  start_btn_disabled (document t) <> false.
Proof. cbv zeta. repeat apply conj; closed. Qed.

(** ** Surfaces *)

(** At one velocity in a force regime and one mass, the braking force is
    strongest on the dry road and weakest on ice. *)
Lemma braking_force_by_surface (m v k : Q) :
  0 < v -> 0 < m -> 0 < k ->
  - v * BRAKING_FORCE_MAP sunny * m * k < - v * BRAKING_FORCE_MAP rainy * m * k /\
  - v * BRAKING_FORCE_MAP rainy * m * k < - v * BRAKING_FORCE_MAP icy * m * k.
Proof.
  intros Hv Hm Hk.
  assert (H : 0 < v * m * k) by (repeat apply Qmult_lt_0_compat; assumption).
  unfold BRAKING_FORCE_MAP. split.
  - setoid_replace (- v * (15 # 100) * m * k) with (- (15 # 100) * (v * m * k)) by ring.
    setoid_replace (- v * (8 # 100) * m * k) with (- (8 # 100) * (v * m * k)) by ring.
    lra.
  - setoid_replace (- v * (8 # 100) * m * k) with (- (8 # 100) * (v * m * k)) by ring.
    setoid_replace (- v * (2 # 100) * m * k) with (- (2 # 100) * (v * m * k)) by ring.
    lra.
Qed.

(** * Further properties of the script *)

(** ** What each handler leaves alone *)

Lemma finishSimulation_setup (c : bool) (s : State) :
  setup (finishSimulation c s) = setup s /\
  world (finishSimulation c s) = world s /\
  render (finishSimulation c s) = render s /\
  brakingStarted (finishSimulation c s) = brakingStarted s /\
  lowSpeedCounter (finishSimulation c s) = lowSpeedCounter s.
Proof.
  unfold finishSimulation.
  destruct (hasFinished s), c, (hasCrashed s); repeat split.
Qed.

Lemma check_stopped_shape (s : State) :
  check_stopped s = s \/
  (detecting s = true /\ check_stopped s = set_lowSpeedCounter s 0) \/
  (detecting s = true /\ (lowSpeedCounter s + 1 <= 30)%Z /\
   check_stopped s = set_lowSpeedCounter s (lowSpeedCounter s + 1)) \/
  (detecting s = true /\
   check_stopped s =
   finishSimulation false
     (set_carBody (set_lowSpeedCounter s (lowSpeedCounter s + 1))
        (Body_setVelocity (Vector.mk 0 0) (carBody s)))).
Proof.
  unfold check_stopped, detecting. destruct (_ && _); [| now left].
  destruct (Qlt_bool _ (3 # 10)); [| right; left; now split].
  cbn [lowSpeedCounter set_lowSpeedCounter].
  destruct (30 <? lowSpeedCounter s + 1)%Z eqn:C; simpl.
  - right; right; right. now split.
  - apply Z.ltb_ge in C. destruct (Qlt_bool _ (5 # 100)).
    + right; right; right. now split.
    + right; right; left. repeat split; assumption.
Qed.

Lemma check_stopped_setup (s : State) :
  setup (check_stopped s) = setup s /\ world (check_stopped s) = world s /\
  render (check_stopped s) = render s /\
  brakingStarted (check_stopped s) = brakingStarted s.
Proof.
  destruct (check_stopped_shape s) as [-> | [[_ ->] | [(_ & _ & ->) | [_ ->]]]];
    try (repeat split; reflexivity).
  destruct (finishSimulation_setup false
              (set_carBody (set_lowSpeedCounter s (lowSpeedCounter s + 1))
                 (Body_setVelocity (Vector.mk 0 0) (carBody s))))
    as (-> & -> & -> & -> & _).
  repeat split.
Qed.

Lemma control_setup (s : State) :
  setup (control s) = setup s /\ world (control s) = world s /\
  render (control s) = render (follow_car s).
Proof.
  unfold control. rewrite check_brake_line_latch. unfold cruise_or_brake. simpl.
  destruct (braking s); simpl.
  - destruct (braking_force _ _ _); repeat split; reflexivity.
  - destruct (Qlt_bool _ _); repeat split; reflexivity.
Qed.

Lemma control_body (s : State) :
  label (carBody (control s)) = label (carBody s) /\
  mass (carBody (control s)) = mass (carBody s) /\
  friction (carBody (control s)) = friction (carBody s) /\
  frictionAir (carBody (control s)) = frictionAir (carBody s).
Proof.
  unfold control. rewrite check_brake_line_latch. unfold cruise_or_brake. simpl.
  destruct (braking s); simpl.
  - destruct (braking_force _ _ _); repeat split; reflexivity.
  - destruct (Qlt_bool _ _); repeat split; reflexivity.
Qed.

Lemma check_stopped_body (s : State) :
  label (carBody (check_stopped s)) = label (carBody s) /\
  mass (carBody (check_stopped s)) = mass (carBody s) /\
  friction (carBody (check_stopped s)) = friction (carBody s) /\
  frictionAir (carBody (check_stopped s)) = frictionAir (carBody s) /\
  position (carBody (check_stopped s)) = position (carBody s).
Proof.
  destruct (check_stopped_shape s) as [-> | [[_ ->] | [(_ & _ & ->) | [_ ->]]]];
    try (repeat split; reflexivity).
  rewrite finishSimulation_carBody. repeat split.
Qed.

Lemma handleUpdate_setup (s : State) :
  setup (handleUpdate s) = setup s /\ world (handleUpdate s) = world s.
Proof.
  destruct (isRunning s) eqn:R.
  - rewrite (handleUpdate_running s R).
    destruct (check_stopped_setup (control s)) as (-> & -> & _).
    destruct (control_setup s) as (-> & -> & _). split; reflexivity.
  - rewrite (handleUpdate_not_running s R). split; reflexivity.
Qed.

Lemma handleCollision_setup (pairs : list Pair) (s : State) :
  setup (handleCollision pairs s) = setup s /\
  world (handleCollision pairs s) = world s /\
  render (handleCollision pairs s) = render s /\
  carBody (handleCollision pairs s) = carBody s /\
  brakingStarted (handleCollision pairs s) = brakingStarted s /\
  lowSpeedCounter (handleCollision pairs s) = lowSpeedCounter s.
Proof.
  rewrite handleCollision_spec. destruct (_ && _); [| repeat split].
  destruct (finishSimulation_setup true (set_hasCrashed s true))
    as (-> & -> & -> & -> & ->).
  rewrite finishSimulation_carBody. repeat split.
Qed.

Lemma startSimulation_setup (s : State) :
  setup (startSimulation s) = setup s /\ world (startSimulation s) = world s /\
  brakingStarted (startSimulation s) = brakingStarted s /\
  history_body (document (startSimulation s)) = history_body (document s).
Proof.
  unfold startSimulation. destruct (isRunning s); repeat split.
Qed.

(** ** The history table *)

Lemma finishSimulation_row (c : bool) (s : State) :
  history_body (document (finishSimulation c s)) = history_body (document s) \/
  exists r, history_body (document (finishSimulation c s)) =
            r :: history_body (document s).
Proof.
  destruct (hasFinished s) eqn:F.
  - left. unfold finishSimulation. rewrite F.
    destruct c, (hasCrashed s); reflexivity.
  - right. destruct (finishSimulation_flags c s F) as (_ & _ & _ & _ & ->).
    eexists. reflexivity.
Qed.

(** An event leaves the history as it is or puts one row on top of it, and
    in the second case the run is finished afterwards. *)
Lemma step_row (e : Event) (s : State) :
  history_body (document (step e s)) = history_body (document s) \/
  hasFinished (step e s) = true /\
  exists r, history_body (document (step e s)) = r :: history_body (document s).
Proof.
  destruct e as [p v | | pairs | | | sp | w | d | iw]; simpl.
  - now left.
  - destruct (isRunning s) eqn:R.
    + rewrite (handleUpdate_running s R).
      destruct (control_frame s) as (_ & _ & _ & _ & _ & <- & _).
      destruct (check_stopped_shape (control s))
        as [-> | [[_ ->] | [(_ & _ & ->) | [_ ->]]]]; try now left.
      destruct (finishSimulation_row false
                  (set_carBody
                     (set_lowSpeedCounter (control s) (lowSpeedCounter (control s) + 1))
                     (Body_setVelocity (Vector.mk 0 0) (carBody (control s)))))
        as [E | E]; [left; exact E | right].
      split; [apply finishSimulation_finished | exact E].
    + rewrite (handleUpdate_not_running s R). now left.
  - rewrite handleCollision_spec. destruct (_ && _); [| now left].
    destruct (finishSimulation_row true (set_hasCrashed s true)) as [E | E];
      [left; exact E | right].
    split; [apply finishSimulation_finished | exact E].
  - left. apply startSimulation_setup.
  - now left.
  - left. unfold selectSpeed. destruct (isRunning s); reflexivity.
  - left. unfold selectWeather. destruct (isRunning s); reflexivity.
  - left. unfold selectDistance. destruct (isRunning s); reflexivity.
  - now left.
Qed.

(** X1.  The history only grows, at its top: whatever happens (a reset, a
    new selection and a new start included), the rows that were there stay
    where they were, unchanged, below the new ones. *)
Theorem history_only_grows (es : list Event) (s : State) :
  exists new : list Row,
    history_body (document (run es s)) = new ++ history_body (document s).
Proof.
  revert s. induction es as [| e es IH]; intros s; simpl.
  - exists []. reflexivity.
  - destruct (IH (step e s)) as (new & ->).
    destruct (step_row e s) as [-> | (_ & r & ->)].
    + exists new. reflexivity.
    + exists (new ++ [r]). rewrite <- app_assoc. reflexivity.
Qed.

Lemma detecting_finished (s : State) : hasFinished s = true -> detecting s = false.
Proof. intros F. unfold detecting. rewrite F. apply andb_false_r. Qed.

Lemma step_finished_frozen (e : Event) (s : State) :
  hasFinished s = true -> no_start_or_reset e = true ->
  document (step e s) = document s /\ hasFinished (step e s) = true.
Proof.
  intros F Q. destruct e as [p v | | pairs | | | sp | w | d | iw];
    try discriminate Q; simpl.
  - now split.
  - destruct (isRunning s) eqn:R.
    + rewrite (handleUpdate_running s R).
      destruct (control_frame s) as (_ & _ & Hf & _ & _ & Hd & _).
      rewrite check_stopped_off by (apply detecting_finished; congruence).
      split; congruence.
    + rewrite (handleUpdate_not_running s R). now split.
  - rewrite handleCollision_spec. destruct (_ && _); [| now split].
    rewrite finishSimulation_ignored by (simpl; auto). now split.
  - now split.
Qed.

Lemma run_finished_frozen (es : list Event) :
  forall s : State,
    hasFinished s = true -> forallb no_start_or_reset es = true ->
    document (run es s) = document s /\ hasFinished (run es s) = true.
Proof.
  induction es as [| e es IH]; intros s F Q; simpl.
  - now split.
  - simpl in Q. apply andb_true_iff in Q. destruct Q as [Qe Qes].
    destruct (step_finished_frozen e s F Qe) as (D & F').
    destruct (IH (step e s) F' Qes) as (-> & ->). now split.
Qed.

Lemma run_backend_only_frozen (es : list Event) :
  forall s : State,
    hasFinished s = true -> forallb backend_only es = true ->
    document (run es s) = document s.
Proof.
  induction es as [| e es IH]; intros s F Q; simpl; [reflexivity |].
  simpl in Q. apply andb_true_iff in Q. destruct Q as [Qe Qes].
  assert (Qe' : no_start_or_reset e = true)
    by (destruct e; simpl in Qe |- *; first [reflexivity | discriminate Qe]).
  destruct (step_finished_frozen e s F Qe') as (D & F').
  rewrite (IH (step e s) F' Qes). exact D.
Qed.

(** X2.  A finished run keeps its record: until a start or a world
    rebuild, no tick, backend step, resize or collision notification adds,
    removes or changes a history row or touches the start button, and the
    run stays finished; and without a collision notification the whole
    page, overlay included, stays as it is. *)
Theorem finished_record_is_kept (es : list Event) (s : State) :
  hasFinished s = true -> forallb no_start_or_reset es = true ->
  hasFinished (run es s) = true /\
  history_body (document (run es s)) = history_body (document s) /\
  start_btn_disabled (document (run es s)) = start_btn_disabled (document s) /\
  (forallb backend_only es = true -> document (run es s) = document s).
Proof.
  intros F Q. destruct (run_finished_frozen es s F Q) as (D & F').
  split; [exact F' |]. split; [now rewrite D |]. split; [now rewrite D |].
  intros B. now apply run_backend_only_frozen.
Qed.

Lemma finished_record_is_kept_witness :
  hasFinished (run [BeforeUpdate] (braking_run 300 (4 # 100))) = true /\
  forallb no_start_or_reset
    [Integrate (on_road 340) (along 2); CollisionStart [mkPair "car" "dummy"];
     BeforeUpdate] = true /\
  history_body
    (document
       (run [Integrate (on_road 340) (along 2);
             CollisionStart [mkPair "car" "dummy"]; BeforeUpdate]
            (run [BeforeUpdate] (braking_run 300 (4 # 100)))))
  = history_body (document (run [BeforeUpdate] (braking_run 300 (4 # 100)))) /\
  forallb backend_only [Integrate (on_road 340) (along 2); BeforeUpdate] = true /\
  document
    (run [Integrate (on_road 340) (along 2); BeforeUpdate]
         (run [BeforeUpdate] (braking_run 300 (4 # 100))))
  = document (run [BeforeUpdate] (braking_run 300 (4 # 100))).
Proof.
  assert (F : hasFinished (run [BeforeUpdate] (braking_run 300 (4 # 100))) = true)
    by closed.
  assert (Q : forallb no_start_or_reset
                [Integrate (on_road 340) (along 2);
                 CollisionStart [mkPair "car" "dummy"]; BeforeUpdate] = true)
    by closed.
  assert (Q' : forallb no_start_or_reset
                 [Integrate (on_road 340) (along 2); BeforeUpdate] = true)
    by closed.
  assert (B : forallb backend_only
                [Integrate (on_road 340) (along 2); BeforeUpdate] = true)
    by closed.
  destruct (finished_record_is_kept _ _ F Q) as (_ & H & _).
  destruct (finished_record_is_kept _ _ F Q') as (_ & _ & _ & D).
  split; [exact F | split; [exact Q | split; [exact H | split; [exact B | exact (D B)]]]].
Defined.

(** X3.  A run gets at most one history row: over any events without a
    start or a world rebuild the history grows by one row at most. *)
Theorem one_row_per_run (es : list Event) (s : State) :
  forallb no_start_or_reset es = true ->
  (List.length (history_body (document (run es s)))
   <= S (List.length (history_body (document s))))%nat.
Proof.
  revert s. induction es as [| e es IH]; intros s Q; simpl.
  - lia.
  - simpl in Q. apply andb_true_iff in Q. destruct Q as [Qe Qes].
    destruct (step_row e s) as [E | (F & r & E)].
    + rewrite <- E. apply IH. exact Qes.
    + destruct (run_finished_frozen es (step e s) F Qes) as (-> & _).
      rewrite E. simpl. lia.
Qed.

Lemma one_row_per_run_witness :
  let es := [BeforeUpdate; Integrate (on_road 340) (along (4 # 100)); BeforeUpdate;
             CollisionStart [mkPair "car" "dummy"]; BeforeUpdate] in
  forallb no_start_or_reset es = true /\
  (List.length (history_body (document (run es (braking_run 300 (4 # 100)))))
   <= 1)%nat.
Proof.
  cbv zeta.
  assert (Q : forallb no_start_or_reset
                [BeforeUpdate; Integrate (on_road 340) (along (4 # 100));
                 BeforeUpdate; CollisionStart [mkPair "car" "dummy"]; BeforeUpdate]
              = true) by closed.
  split; [exact Q |].
  exact (one_row_per_run _ (braking_run 300 (4 # 100)) Q).
Defined.

(** ** The brake latch *)

Lemma handleUpdate_brakingStarted (s : State) :
  brakingStarted (handleUpdate s) = if isRunning s then braking s else brakingStarted s.
Proof.
  destruct (isRunning s) eqn:R.
  - rewrite (handleUpdate_running s R).
    destruct (check_stopped_setup (control s)) as (_ & _ & _ & ->).
    now destruct (control_frame s) as (-> & _).
  - now rewrite (handleUpdate_not_running s R).
Qed.

Lemma step_keeps_latch (e : Event) (s : State) :
  no_rebuild e = true -> brakingStarted s = true -> brakingStarted (step e s) = true.
Proof.
  intros Q B. destruct e as [p v | | pairs | | | sp | w | d | iw];
    try discriminate Q; simpl.
  - exact B.
  - rewrite handleUpdate_brakingStarted. unfold braking. rewrite B.
    destruct (isRunning s); reflexivity.
  - destruct (handleCollision_setup pairs s) as (_ & _ & _ & _ & -> & _). exact B.
  - destruct (startSimulation_setup s) as (_ & _ & -> & _). exact B.
  - exact B.
Qed.

(** X4.  The brake latch is set by the tick of an active run on which the
    car is at or past the brake line, and then stays set: no tick, backend
    step, collision, resize or even a new start clears it; only a world
    rebuild does. *)
Theorem brake_latch_is_one_way (es : list Event) (s : State) :
  forallb no_rebuild es = true ->
  (isRunning s = true ->
   BRAKE_LINE_X <= Vector.x (position (carBody s)) ->
   brakingStarted (handleUpdate s) = true) /\
  (brakingStarted s = true -> brakingStarted (run es s) = true) /\
  brakingStarted (resetWorld (run es s)) = false.
Proof.
  intros Q. repeat apply conj.
  - intros R H. rewrite handleUpdate_brakingStarted, R. unfold braking.
    apply Qle_bool_iff in H. rewrite H. apply orb_true_r.
  - revert s. induction es as [| e es IH]; intros s B; simpl; [exact B |].
    simpl in Q. apply andb_true_iff in Q. destruct Q as [Qe Qes].
    apply (IH Qes). now apply step_keeps_latch.
  - reflexivity.
Qed.

Lemma brake_latch_is_one_way_witness :
  forallb no_rebuild
    [Integrate (on_road 100) (along (- (3))); BeforeUpdate; ClickStart; BeforeUpdate]
  = true /\
  isRunning (started_run 150 8) = true /\
  BRAKE_LINE_X <= Vector.x (position (carBody (started_run 150 8))) /\
  brakingStarted (started_run 150 8) = false /\
  brakingStarted (handleUpdate (started_run 150 8)) = true /\
  brakingStarted
    (run [Integrate (on_road 100) (along (- (3))); BeforeUpdate; ClickStart;
          BeforeUpdate] (handleUpdate (started_run 150 8))) = true.
Proof.
  assert (Q : forallb no_rebuild
                [Integrate (on_road 100) (along (- (3)));
                 BeforeUpdate; ClickStart; BeforeUpdate] = true) by closed.
  assert (R : isRunning (started_run 150 8) = true) by closed.
  assert (H : BRAKE_LINE_X <= Vector.x (position (carBody (started_run 150 8))))
    by closed.
  assert (N : brakingStarted (started_run 150 8) = false) by closed.
  destruct (brake_latch_is_one_way _ (started_run 150 8) Q) as (H1 & _).
  destruct (brake_latch_is_one_way _ (handleUpdate (started_run 150 8)) Q)
    as (_ & H2 & _).
  split; [exact Q | split; [exact R | split; [exact H | split; [exact N |]]]].
  split; [exact (H1 R H) | exact (H2 (H1 R H))].
Defined.

(** ** Before and after the brake line *)

Lemma vector_eta (v : Vector.t) : Vector.mk (Vector.x v) (Vector.y v) = v.
Proof. destruct v. reflexivity. Qed.

(** X5.  Before the brake line the tick of an active run holds the cruise
    speed as a floor: a velocity below the selected cruise speed is raised
    to it, a higher one is kept, the vertical velocity is untouched; no
    force is applied, the counter does not move and the run goes on. *)
Theorem cruise_speed_is_a_floor (s : State) :
  isRunning s = true -> braking s = false ->
  let t := handleUpdate s in
  let target := SPEED_MAP (currentSpeed s) in
  velocity (carBody t) =
    Vector.mk (Math_max (Vector.x (velocity (carBody s))) target)
              (Vector.y (velocity (carBody s))) /\
  target <= Vector.x (velocity (carBody t)) /\
  force (carBody t) = force (carBody s) /\
  position (carBody t) = position (carBody s) /\
  lowSpeedCounter t = lowSpeedCounter s /\
  isRunning t = true /\ brakingStarted t = false /\
  document t = document s.
Proof.
  intros R B t target. subst t.
  rewrite (handleUpdate_running s R).
  destruct (control_frame s) as (Hb & _ & _ & Hr & Hc & Hd & _ & _ & Hp).
  assert (D : detecting (control s) = false).
  { unfold detecting. rewrite Hb, B. reflexivity. }
  rewrite (check_stopped_off _ D), Hp, Hc, Hr, Hd, Hb.
  assert (V : velocity (carBody (control s)) =
              Vector.mk (Math_max (Vector.x (velocity (carBody s))) target)
                        (Vector.y (velocity (carBody s))) /\
              force (carBody (control s)) = force (carBody s)).
  { unfold control. rewrite check_brake_line_latch. unfold cruise_or_brake. simpl.
    rewrite B. simpl. unfold Math_max. fold target.
    destruct (Qlt_bool _ target); simpl; [now split |].
    split; [symmetry; apply vector_eta | reflexivity]. }
  destruct V as (-> & ->). repeat apply conj; try reflexivity; try assumption.
  simpl. destruct (Math_max_spec (Vector.x (velocity (carBody s))) target)
    as [[_ ->] | [H ->]]; [apply Qle_refl | exact H].
Qed.

Lemma cruise_speed_is_a_floor_witness :
  isRunning (started_run 20 5) = true /\ braking (started_run 20 5) = false /\
  velocity (carBody (handleUpdate (started_run 20 5))) = along 8 /\
  isRunning (started_run 20 9) = true /\ braking (started_run 20 9) = false /\
  velocity (carBody (handleUpdate (started_run 20 9))) = along 9.
Proof.
  assert (R1 : isRunning (started_run 20 5) = true) by closed.
  assert (B1 : braking (started_run 20 5) = false) by closed.
  assert (R2 : isRunning (started_run 20 9) = true) by closed.
  assert (B2 : braking (started_run 20 9) = false) by closed.
  destruct (cruise_speed_is_a_floor _ R1 B1) as (V1 & _).
  destruct (cruise_speed_is_a_floor _ R2 B2) as (V2 & _).
  assert (E1 : Vector.mk
                 (Math_max (Vector.x (velocity (carBody (started_run 20 5))))
                           (SPEED_MAP (currentSpeed (started_run 20 5))))
                 (Vector.y (velocity (carBody (started_run 20 5)))) = along 8)
    by closed.
  assert (E2 : Vector.mk
                 (Math_max (Vector.x (velocity (carBody (started_run 20 9))))
                           (SPEED_MAP (currentSpeed (started_run 20 9))))
                 (Vector.y (velocity (carBody (started_run 20 9)))) = along 9)
    by closed.
  split; [exact R1 | split; [exact B1 | split; [exact (eq_trans V1 E1) |]]].
  split; [exact R2 | split; [exact B2 | exact (eq_trans V2 E2)]].
Defined.

(** X6.  After the brake line the engine is off: the tick of an active run
    never raises or restores the velocity; it leaves the velocity as the
    backend gave it, or sets it to zero when it finalizes the run as
    stopped. *)
Theorem no_engine_after_brake_line (s : State) :
  isRunning s = true -> braking s = true ->
  velocity (carBody (handleUpdate s)) = velocity (carBody s) \/
  velocity (carBody (handleUpdate s)) = Vector.mk 0 0 /\
  hasFinished (handleUpdate s) = true /\ hasCrashed (handleUpdate s) = hasCrashed s.
Proof.
  intros R B. rewrite (handleUpdate_running s R).
  pose proof (control_braking_velocity s B) as V.
  destruct (check_stopped_shape (control s))
    as [-> | [[_ ->] | [(_ & _ & ->) | [_ ->]]]]; try (left; exact V).
  right. rewrite finishSimulation_carBody, finishSimulation_finished,
           finishSimulation_false_hasCrashed.
  simpl. destruct (control_frame s) as (_ & -> & _). repeat split.
Qed.

Lemma no_engine_after_brake_line_witness :
  isRunning (braking_run 300 2) = true /\ braking (braking_run 300 2) = true /\
  velocity (carBody (handleUpdate (braking_run 300 2))) =
    velocity (carBody (braking_run 300 2)).
Proof.
  assert (R : isRunning (braking_run 300 2) = true) by closed.
  assert (B : braking (braking_run 300 2) = true) by closed.
  assert (F' : hasFinished (handleUpdate (braking_run 300 2)) = false) by closed.
  split; [exact R | split; [exact B |]].
  destruct (no_engine_after_brake_line _ R B) as [V | (_ & F & _)].
  - exact V.
  - exfalso. exact (eq_true_false_abs _ F F').
Defined.

(** ** The force the script applies *)

Lemma braking_force_negative (w : Weather) (m v f : Q) :
  0 < m -> braking_force w m v = Some f -> f < 0.
Proof.
  intros Hm. unfold braking_force.
  destruct (Qlt_bool (5 # 10) v) eqn:H1.
  - intros [= <-]. apply Qlt_bool_iff in H1.
    apply opposing_force; [lra | exact Hm | reflexivity].
  - destruct (Qlt_bool (1 # 100) v) eqn:H2; [| discriminate].
    intros [= <-]. apply Qlt_bool_iff in H2.
    apply opposing_force; [lra | exact Hm | reflexivity].
Qed.

Lemma control_force (s : State) :
  force (carBody (control s)) = force (carBody s) \/
  exists f, braking_force (currentWeather s) (mass (carBody s))
                          (Vector.x (velocity (carBody s))) = Some f /\
            force (carBody (control s)) = Vector.add (force (carBody s)) (Vector.mk f 0).
Proof.
  unfold control. rewrite check_brake_line_latch. unfold cruise_or_brake. simpl.
  destruct (braking s); simpl.
  - destruct (braking_force _ _ _) as [f |] eqn:E; [right | now left].
    exists f. split; reflexivity.
  - destruct (Qlt_bool _ _); now left.
Qed.

(** X7.  The script never pushes the car: whatever the state, a tick
    leaves the vertical component of the car's force alone and adds
    nothing positive to the horizontal one (the car's mass being positive,
    as it is for the car [resetWorld] builds). *)
Theorem tick_never_pushes (s : State) :
  0 < mass (carBody s) ->
  Vector.x (force (carBody (handleUpdate s))) <= Vector.x (force (carBody s)) /\
  Vector.y (force (carBody (handleUpdate s))) == Vector.y (force (carBody s)).
Proof.
  intros Hm. destruct (isRunning s) eqn:R.
  - rewrite (handleUpdate_running s R), check_stopped_force.
    destruct (control_force s) as [-> | (f & Hf & ->)].
    + split; [apply Qle_refl | reflexivity].
    + pose proof (braking_force_negative _ _ _ _ Hm Hf) as Hneg. simpl. split; lra.
  - rewrite (handleUpdate_not_running s R). split; [apply Qle_refl | reflexivity].
Qed.

Lemma tick_never_pushes_witness :
  0 < mass (carBody (braking_run 300 8)) /\
  Vector.x (force (carBody (handleUpdate (braking_run 300 8))))
  <= Vector.x (force (carBody (braking_run 300 8))).
Proof.
  assert (Hm : 0 < mass (carBody (braking_run 300 8))) by closed.
  split; [exact Hm | exact (proj1 (tick_never_pushes _ Hm))].
Defined.

(** ** The camera *)

Lemma handleUpdate_render (s : State) :
  render (handleUpdate s) = if isRunning s then render (follow_car s) else render s.
Proof.
  destruct (isRunning s) eqn:R.
  - rewrite (handleUpdate_running s R).
    destruct (check_stopped_setup (control s)) as (_ & _ & -> & _).
    now destruct (control_setup s) as (_ & _ & ->).
  - now rewrite (handleUpdate_not_running s R).
Qed.

Lemma view_fits_follow_car (s : State) : view_fits (follow_car s).
Proof. unfold view_fits, follow_car. simpl. repeat split. ring. Qed.

Lemma view_fits_resetWorld (s : State) : view_fits (resetWorld s).
Proof. unfold view_fits, resetWorld. simpl. repeat split. ring. Qed.

Lemma view_fits_render (s t : State) :
  render t = render s -> view_fits s -> view_fits t.
Proof. unfold view_fits. intros ->. trivial. Qed.

Lemma step_view_fits (e : Event) (s : State) :
  view_fits s ->
  view_fits (step e s) /\
  options_width (render (step e s)) = options_width (render s) /\
  options_height (render (step e s)) = options_height (render s).
Proof.
  intros V. destruct e as [p v | | pairs | | | sp | w | d | iw]; simpl.
  - repeat split; apply V.
  - destruct (isRunning s) eqn:R.
    + split; [| split].
      * apply (view_fits_render (follow_car s)); [| apply view_fits_follow_car].
        now rewrite handleUpdate_render, R.
      * now rewrite handleUpdate_render, R.
      * now rewrite handleUpdate_render, R.
    + rewrite (handleUpdate_not_running s R). repeat split; apply V.
  - destruct (handleCollision_setup pairs s) as (_ & _ & E & _).
    rewrite E. split; [exact (view_fits_render s _ E V) | split; reflexivity].
  - unfold startSimulation. destruct (isRunning s); repeat split; apply V.
  - split; [apply view_fits_resetWorld | split; reflexivity].
  - unfold selectSpeed. destruct (isRunning s).
    + repeat split; apply V.
    + split; [apply view_fits_resetWorld | split; reflexivity].
  - unfold selectWeather. destruct (isRunning s).
    + repeat split; apply V.
    + split; [apply view_fits_resetWorld | split; reflexivity].
  - unfold selectDistance. destruct (isRunning s).
    + repeat split; apply V.
    + split; [apply view_fits_resetWorld | split; reflexivity].
  - repeat split; apply V.
Qed.

(** X8.  The camera only pans.  In every state reached from [init] in a
    window of width [w], the view asked of the renderer is [w] wide and
    400 high, from height 0, also after the window has been resized; and
    the tick of an active run puts its left edge 200 pixels behind the
    car. *)
Theorem camera_only_pans (w : Q) (es : list Event) :
  let t := run es (init w) in
  options_width (render t) = w /\ options_height (render t) = 400 /\
  Vector.y (bmin (bounds (render t))) = 0 /\
  Vector.y (bmax (bounds (render t))) = 400 /\
  Vector.x (bmax (bounds (render t))) - Vector.x (bmin (bounds (render t))) == w /\
  (isRunning t = true ->
   Vector.x (bmin (bounds (render (handleUpdate t)))) =
   Vector.x (position (carBody t)) - 200).
Proof.
  cbv zeta.
  assert (I : forall s : State,
             view_fits s /\ options_width (render s) = w /\
             options_height (render s) = 400 ->
             view_fits (run es s) /\ options_width (render (run es s)) = w /\
             options_height (render (run es s)) = 400).
  { induction es as [| e es IH]; intros s H; simpl; [exact H |].
    apply IH. destruct H as (V & Hw & Hh).
    destruct (step_view_fits e s V) as (V' & -> & ->).
    split; [exact V' | split; assumption]. }
  destruct (I (init w)) as ((Y0 & Y1 & X) & Hw & Hh).
  { split; [apply view_fits_resetWorld | split; reflexivity]. }
  rewrite Hw in X. rewrite Hh in Y1. repeat apply conj; try assumption.
  intros R. rewrite handleUpdate_render, R. reflexivity.
Qed.

Lemma camera_only_pans_witness :
  isRunning (started_run 20 8) = true /\
  Vector.x (bmin (bounds (render (handleUpdate (started_run 20 8))))) =
  Vector.x (position (carBody (started_run 20 8))) - 200.
Proof.
  assert (R : isRunning (started_run 20 8) = true) by closed.
  split; [exact R |].
  destruct (camera_only_pans 1200 [ClickStart; Integrate (on_road 20) (along 8)])
    as (_ & _ & _ & _ & _ & H).
  exact (H R).
Defined.

(** ** Scene and configuration *)

Lemma scene_matches_resetWorld (s : State) : scene_matches (resetWorld s).
Proof.
  unfold scene_matches, resetWorld. simpl.
  do 4 eexists. repeat split.
Qed.

Lemma scene_matches_same (s t : State) :
  setup t = setup s -> world t = world s -> scene_matches s -> scene_matches t.
Proof.
  unfold scene_matches, setup, config. intros E W H.
  injection E as Ed _ Ew _. rewrite W, Ed, Ew. exact H.
Qed.

Lemma step_scene_matches (e : Event) (s : State) :
  scene_matches s -> scene_matches (step e s).
Proof.
  intros H. destruct e as [p v | | pairs | | | sp | w | d | iw]; simpl.
  - exact H.
  - destruct (handleUpdate_setup s) as (E & W). exact (scene_matches_same s _ E W H).
  - destruct (handleCollision_setup pairs s) as (E & W & _).
    exact (scene_matches_same s _ E W H).
  - destruct (startSimulation_setup s) as (E & W & _).
    exact (scene_matches_same s _ E W H).
  - apply scene_matches_resetWorld.
  - unfold selectSpeed. destruct (isRunning s);
      [exact H | apply scene_matches_resetWorld].
  - unfold selectWeather. destruct (isRunning s);
      [exact H | apply scene_matches_resetWorld].
  - unfold selectDistance. destruct (isRunning s);
      [exact H | apply scene_matches_resetWorld].
  - exact H.
Qed.

(** X9.  The scene always agrees with the selection.  In every state
    reached from [init], the static bodies the script has put into the
    world are exactly the ground, the brake line sensor and the two parts
    of the dummy; the friction option the ground was created with is the
    one of the selected weather, and both parts of the dummy stand at the
    brake line plus the selected obstacle distance. *)
Theorem scene_follows_selection (w : Q) (es : list Event) :
  scene_matches (run es (init w)).
Proof.
  assert (I : forall s, scene_matches s -> scene_matches (run es s)).
  { induction es as [| e es IH]; intros s H; simpl; [exact H |].
    apply IH. now apply step_scene_matches. }
  apply I. apply scene_matches_resetWorld.
Qed.

(** X10.  While a run is active the selection is locked: no event changes
    the selected speed, weather or obstacle distance (the three selection
    listeners return at once), and nothing but the reset button touches
    the scene. *)
Theorem selection_locked_while_running (e : Event) (s : State) :
  isRunning s = true ->
  config (step e s) = config s /\
  (e <> ClickReset -> world (step e s) = world s).
Proof.
  intros R. destruct e as [p v | | pairs | | | sp | w | d | iw]; simpl.
  - split; reflexivity.
  - destruct (handleUpdate_setup s) as (E & W). apply (f_equal fst) in E.
    split; [exact E | intros _; exact W].
  - destruct (handleCollision_setup pairs s) as (E & W & _).
    apply (f_equal fst) in E. split; [exact E | intros _; exact W].
  - unfold startSimulation. rewrite R. split; reflexivity.
  - split; [reflexivity | congruence].
  - unfold selectSpeed. rewrite R. split; reflexivity.
  - unfold selectWeather. rewrite R. split; reflexivity.
  - unfold selectDistance. rewrite R. split; reflexivity.
  - split; reflexivity.
Qed.

Lemma selection_locked_while_running_witness :
  isRunning (braking_run 300 8) = true /\
  config (step (ClickWeather icy) (braking_run 300 8)) = (400, kmh30, sunny) /\
  config (step (ClickWeather icy) (resetWorld (braking_run 300 8)))
  = (400, kmh30, icy).
Proof.
  assert (R : isRunning (braking_run 300 8) = true) by closed.
  destruct (selection_locked_while_running (ClickWeather icy) _ R) as (C & _).
  assert (E : config (braking_run 300 8) = (400, kmh30, sunny)) by closed.
  split; [exact R | split; [exact (eq_trans C E) | closed]].
Defined.

(** ** The result shown *)






(** ** The run flags *)

Lemma step_crashed_finished (e : Event) (s : State) :
  (hasCrashed s = true -> hasFinished s = true) ->
  hasCrashed (step e s) = true -> hasFinished (step e s) = true.
Proof.
  intros I. destruct e as [p v | | pairs | | | sp | w | d | iw]; simpl.
  - exact I.
  - rewrite handleUpdate_hasCrashed. intros C.
    exact (proj2 (step_finished_frozen BeforeUpdate s (I C) eq_refl)).
  - rewrite handleCollision_spec. destruct (_ && _); [| exact I].
    intros _. apply finishSimulation_finished.
  - unfold startSimulation. destruct (isRunning s); simpl; [exact I | discriminate].
  - discriminate.
  - unfold selectSpeed. destruct (isRunning s); simpl; [exact I | discriminate].
  - unfold selectWeather. destruct (isRunning s); simpl; [exact I | discriminate].
  - unfold selectDistance. destruct (isRunning s); simpl; [exact I | discriminate].
  - exact I.
Qed.

Lemma run_crashed_finished (es : list Event) :
  forall s : State,
    (hasCrashed s = true -> hasFinished s = true) ->
    hasCrashed (run es s) = true -> hasFinished (run es s) = true.
Proof.
  induction es as [| e es IH]; intros s I; simpl; [exact I |].
  apply IH. now apply step_crashed_finished.
Qed.

(** X12.  Crashed implies finished, and an active run is undecided.  From
    a state where a crashed run is finished and a finished run is idle
    (the state [init] leaves is one), every reachable state keeps both;
    so while the run is active it is neither finished nor crashed, and
    the guard of stop detection comes down to: active and braking. *)
Theorem active_run_is_undecided (es : list Event) (s : State) :
  (hasCrashed s = true -> hasFinished s = true) ->
  (hasFinished s = true -> isRunning s = false) ->
  let t := run es s in
  (hasCrashed t = true -> hasFinished t = true) /\
  (isRunning t = true -> hasFinished t = false /\ hasCrashed t = false) /\
  stop_detection_runs t = isRunning t && braking t.
Proof.
  intros Ic If t.
  pose proof (run_crashed_finished es s Ic) as C. fold t in C.
  pose proof (run_finished_idle es s If) as F. fold t in F.
  assert (U : isRunning t = true -> hasFinished t = false /\ hasCrashed t = false).
  { intros R. destruct (hasFinished t) eqn:Ft.
    - specialize (F eq_refl). congruence.
    - split; [reflexivity |]. destruct (hasCrashed t); [| reflexivity].
      specialize (C eq_refl). discriminate C. }
  split; [exact C | split; [exact U |]].
  unfold stop_detection_runs. destruct (isRunning t) eqn:R; [| reflexivity].
  destruct (U eq_refl) as (-> & ->). simpl. now rewrite !andb_true_r.
Qed.

Lemma active_run_is_undecided_witness :
  (hasCrashed (init 1200) = true -> hasFinished (init 1200) = true) /\
  (hasFinished (init 1200) = true -> isRunning (init 1200) = false) /\
  isRunning (braking_run 300 8) = true /\
  hasFinished (braking_run 300 8) = false /\ hasCrashed (braking_run 300 8) = false.
Proof.
  assert (Ic : hasCrashed (init 1200) = true -> hasFinished (init 1200) = true)
    by (intros H; exfalso; revert H; closed).
  assert (If : hasFinished (init 1200) = true -> isRunning (init 1200) = false)
    by (intros _; closed).
  assert (R : isRunning (braking_run 300 8) = true) by closed.
  destruct (active_run_is_undecided
              [ClickStart; Integrate (on_road 150) (along 8); BeforeUpdate;
               Integrate (on_road 300) (along 8)] (init 1200) Ic If)
    as (_ & U & _).
  split; [exact Ic | split; [exact If | split; [exact R | exact (U R)]]].
Defined.

(** ** The low-speed counter *)

Lemma detecting_unfinished (s : State) : detecting s = true -> hasFinished s = false.
Proof.
  unfold detecting. intros H. apply andb_true_iff in H. destruct H as [_ H].
  now apply negb_true_iff in H.
Qed.

Lemma step_counter_bounds (e : Event) (s : State) :
  (0 <= lowSpeedCounter s <= 31)%Z /\
  (isRunning s = true -> (lowSpeedCounter s <= 30)%Z) ->
  (0 <= lowSpeedCounter (step e s) <= 31)%Z /\
  (isRunning (step e s) = true -> (lowSpeedCounter (step e s) <= 30)%Z).
Proof.
  intros (B & Br). destruct e as [p v | | pairs | | | sp | w | d | iw]; simpl.
  - split; assumption.
  - destruct (isRunning s) eqn:R.
    + specialize (Br eq_refl). rewrite (handleUpdate_running s R).
      destruct (control_frame s) as (_ & _ & _ & Hr & Hc & _).
      destruct (check_stopped_shape (control s))
        as [-> | [[_ ->] | [(_ & L & ->) | [D ->]]]].
      * rewrite Hc. split; [exact B | intros _; exact Br].
      * simpl. split; [lia | intros _; lia].
      * simpl. rewrite Hc in *. split; [lia | intros _; lia].
      * set (u := set_carBody _ _).
        assert (U : hasFinished u = false) by (apply detecting_unfinished; exact D).
        destruct (finishSimulation_flags false u U) as (_ & -> & _).
        destruct (finishSimulation_setup false u) as (_ & _ & _ & _ & ->).
        unfold u. simpl. rewrite Hc. split; [lia | discriminate].
    + rewrite (handleUpdate_not_running s R). split; [exact B | rewrite R; discriminate].
  - destruct (handleCollision_setup pairs s) as (_ & _ & _ & _ & _ & ->).
    split; [exact B |]. intros R.
    destruct (handleCollision_start_btn pairs s) as (_ & H). auto.
  - unfold startSimulation. destruct (isRunning s) eqn:R; simpl.
    + rewrite R. split; assumption.
    + split; [lia | intros _; lia].
  - split; [exact B | discriminate].
  - unfold selectSpeed. destruct (isRunning s) eqn:R; simpl.
    + rewrite R. split; assumption.
    + split; [exact B | discriminate].
  - unfold selectWeather. destruct (isRunning s) eqn:R; simpl.
    + rewrite R. split; assumption.
    + split; [exact B | discriminate].
  - unfold selectDistance. destruct (isRunning s) eqn:R; simpl.
    + rewrite R. split; assumption.
    + split; [exact B | discriminate].
  - split; assumption.
Qed.

(** X13.  The low-speed counter is bounded.  In every state reached from
    [init] it lies between 0 and 31, and between 0 and 30 while the run is
    active: the tick that takes it past 30 ends the run, and a start puts
    it back to 0. *)
Theorem counter_is_bounded (w : Q) (es : list Event) :
  let t := run es (init w) in
  (0 <= lowSpeedCounter t <= 31)%Z /\
  (isRunning t = true -> (lowSpeedCounter t <= 30)%Z).
Proof.
  cbv zeta.
  assert (I : forall s : State,
             (0 <= lowSpeedCounter s <= 31)%Z /\
             (isRunning s = true -> (lowSpeedCounter s <= 30)%Z) ->
             (0 <= lowSpeedCounter (run es s) <= 31)%Z /\
             (isRunning (run es s) = true -> (lowSpeedCounter (run es s) <= 30)%Z)).
  { induction es as [| e es IH]; intros s H; simpl; [exact H |].
    apply IH. now apply step_counter_bounds. }
  apply I. simpl. split; [lia | discriminate].
Qed.

Lemma counter_is_bounded_witness :
  isRunning (braking_run 300 (1 # 10)) = true /\
  (lowSpeedCounter (braking_run 300 (1 # 10)) <= 30)%Z.
Proof.
  assert (R : isRunning (braking_run 300 (1 # 10)) = true) by closed.
  split; [exact R |].
  destruct (counter_is_bounded 1200
              [ClickStart; Integrate (on_road 150) (along 8); BeforeUpdate;
               Integrate (on_road 300) (along (1 # 10))]) as (_ & H).
  exact (H R).
Defined.

(** ** Collision notifications *)

Lemma existsb_car_dummy_false (pairs : list Pair) :
  (forall p, In p pairs -> ~ car_dummy_pair p) -> existsb car_and_dummy pairs = false.
Proof.
  intros H. destruct (existsb car_and_dummy pairs) eqn:E; [| reflexivity].
  apply existsb_car_dummy in E. destruct E as (p & Hin & Hp).
  exfalso. exact (H p Hin Hp).
Qed.

Lemma finishSimulation_keeps_crashed (c : bool) (s : State) :
  hasCrashed s = true -> hasCrashed (finishSimulation c s) = true.
Proof.
  intros C. unfold finishSimulation. rewrite C.
  destruct (hasFinished s), c; simpl; exact C || reflexivity.
Qed.

(** X14.  What a collision notification does depends only on whether it
    lists the car with the dummy.  If the run has crashed already, or if
    no pair of the list is the car with the dummy (the ground, the brake
    line sensor), the state is unchanged.  Otherwise the effect is that of
    the single pair (car, dummy), however many such pairs the list holds
    (the dummy's body and its head), wherever they stand and in either
    order; on a run not yet crashed the flags come out crashed and
    finished, and the history grows by one row at most. *)
Theorem collision_acts_once (pairs : list Pair) (s : State) :
  (hasCrashed s = true -> handleCollision pairs s = s) /\
  ((forall p, In p pairs -> ~ car_dummy_pair p) -> handleCollision pairs s = s) /\
  ((exists p, In p pairs /\ car_dummy_pair p) ->
   handleCollision pairs s = handleCollision [mkPair "car" "dummy"] s /\
   (hasCrashed s = false ->
    hasCrashed (handleCollision pairs s) = true /\
    hasFinished (handleCollision pairs s) = true /\
    (List.length (history_body (document (handleCollision pairs s)))
     <= S (List.length (history_body (document s))))%nat)).
Proof.
  repeat apply conj.
  - intros C. unfold handleCollision. rewrite C. reflexivity.
  - intros H. rewrite handleCollision_spec, (existsb_car_dummy_false pairs H).
    rewrite andb_false_r. reflexivity.
  - intros H. apply existsb_car_dummy in H.
    rewrite !handleCollision_spec, H. split; [reflexivity |].
    intros C. rewrite C. simpl. split; [| split].
    + now apply finishSimulation_keeps_crashed.
    + apply finishSimulation_finished.
    + destruct (finishSimulation_row true (set_hasCrashed s true)) as [E | (r & E)];
        rewrite E; simpl; lia.
Qed.

Lemma collision_acts_once_witness :
  (forall p, In p [mkPair "car" "Rectangle Body"; mkPair "brakeLine" "car"] ->
             ~ car_dummy_pair p) /\
  handleCollision [mkPair "car" "Rectangle Body"; mkPair "brakeLine" "car"]
                  (braking_run 300 8) = braking_run 300 8 /\
  (exists p, In p [mkPair "car" "Rectangle Body"; mkPair "dummy" "car";
                   mkPair "car" "dummy"] /\ car_dummy_pair p) /\
  hasCrashed (braking_run 300 8) = false /\
  (List.length
     (history_body
        (document
           (handleCollision [mkPair "car" "Rectangle Body"; mkPair "dummy" "car";
                             mkPair "car" "dummy"] (braking_run 300 8))))
   <= S (List.length (history_body (document (braking_run 300 8)))))%nat.
Proof.
  assert (N : forall p,
             In p [mkPair "car" "Rectangle Body"; mkPair "brakeLine" "car"] ->
             ~ car_dummy_pair p).
  { intros p [<- | [<- | []]] [[A B] | [A B]]; simpl in A, B; discriminate. }
  assert (P : exists p, In p [mkPair "car" "Rectangle Body"; mkPair "dummy" "car";
                              mkPair "car" "dummy"] /\ car_dummy_pair p).
  { exists (mkPair "dummy" "car"). split; [right; now left | right; split; reflexivity]. }
  assert (C : hasCrashed (braking_run 300 8) = false) by closed.
  destruct (collision_acts_once
              [mkPair "car" "Rectangle Body"; mkPair "brakeLine" "car"]
              (braking_run 300 8)) as (_ & H2 & _).
  destruct (collision_acts_once
              [mkPair "car" "Rectangle Body"; mkPair "dummy" "car";
               mkPair "car" "dummy"] (braking_run 300 8)) as (_ & _ & H3).
  destruct (H3 P) as (_ & H4). destruct (H4 C) as (_ & _ & L).
  split; [exact N | split; [exact (H2 N) | split; [exact P | split; [exact C | exact L]]]].
Defined.

(** ** The distance text, in pixels *)

Lemma distanceMetres_bounds (s : State) :
  0 <= distanceMetres s /\
  distancePx s - distancePx s * half_ulp <= distanceMetres s * 10 /\
  distanceMetres s * 10 <= distancePx s + distancePx s * half_ulp.
Proof.
  pose proof (distance_nonneg s) as Hd. fold (distancePx s) in Hd.
  destruct (round_binary64_error _ Hd) as [Elo Ehi].
  pose proof (round_binary64_nonneg _ Hd) as Hq.
  fold (Number_div (distancePx s) SCALE) in Elo, Ehi, Hq.
  fold (distanceMetres s) in Elo, Ehi, Hq.
  assert (E : distancePx s == distancePx s / SCALE * 10) by (unfold SCALE; field).
  set (a := distancePx s / SCALE) in *. clearbody a.
  unfold half_ulp. split; [exact Hq |]. rewrite E. split; lra.
Qed.

Lemma distanceM_tenths (s : State) :
  distanceM s = fixed1_of_tenths (nearest_integer (distanceMetres s * 10)) /\
  tenths_of_fixed1 (distanceM s) = Some (nearest_integer (distanceMetres s * 10)) /\
  (0 <= nearest_integer (distanceMetres s * 10))%Z.
Proof.
  destruct (distanceMetres_bounds s) as (Hq & _).
  assert (N : (0 <= nearest_integer (distanceMetres s * 10))%Z)
    by (apply nearest_integer_nonneg; lra).
  assert (E : distanceM s = fixed1_of_tenths (nearest_integer (distanceMetres s * 10))).
  { unfold distanceM. fold (distancePx s). fold (distanceMetres s).
    now apply toFixed1_nonneg. }
  split; [exact E | split; [| exact N]].
  rewrite E. now apply tenths_of_fixed1_of_tenths.
Qed.

Lemma distancePx_monotone (s t : State) :
  Vector.x (position (carBody s)) <= Vector.x (position (carBody t)) ->
  distancePx s <= distancePx t.
Proof.
  intros H. unfold distancePx.
  destruct (Math_max_spec 0 (Vector.x (position (carBody s)) - BRAKE_LINE_X))
    as [[H1 ->] | [H1 ->]];
  destruct (Math_max_spec 0 (Vector.x (position (carBody t)) - BRAKE_LINE_X))
    as [[H2 ->] | [H2 ->]]; lra.
Qed.

Lemma distanceMetres_monotone (s t : State) :
  Vector.x (position (carBody s)) <= Vector.x (position (carBody t)) ->
  distanceMetres s <= distanceMetres t.
Proof.
  intros H. pose proof (distancePx_monotone s t H) as Hp.
  pose proof (distance_nonneg s) as Hd. fold (distancePx s) in Hd.
  unfold distanceMetres, Number_div. apply round_binary64_monotone; [exact Hd |].
  apply Qmult_le_r; [reflexivity | exact Hp].
Qed.

Lemma distanceM_before_line (s : State) :
  Vector.x (position (carBody s)) <= BRAKE_LINE_X -> distanceM s = "0.0"%string.
Proof.
  intros H. unfold distanceM.
  destruct (Math_max_spec 0 (Vector.x (position (carBody s)) - BRAKE_LINE_X))
    as [[H1 _] | [_ ->]]; [lra | reflexivity].
Qed.

(** X15.  With 10 pixels to the metre and one decimal, the distance
    recorded at finalization, counted in tenths of a metre, is the pixel
    distance past the brake line to within half a pixel and the rounding
    of the division (the fraction 2^-53 of the distance); the overlay
    shows the same text as the new history row; and a car that is
    finalized at or before the brake line is recorded at 0.0. *)
Theorem recorded_tenths_are_pixels (c : bool) (s : State) :
  hasFinished s = false ->
  exists (r : Row) (n : Z),
    history_body (document (finishSimulation c s)) = r :: history_body (document s) /\
    tenths_of_fixed1 (row_distance r) = Some n /\
    distancePx s - (1 # 2) - distancePx s * half_ulp < inject_Z n /\
    inject_Z n <= distancePx s + (1 # 2) + distancePx s * half_ulp /\
    result_distance (document (finishSimulation c s)) = row_distance r /\
    (Vector.x (position (carBody s)) <= BRAKE_LINE_X ->
     row_distance r = "0.0"%string).
Proof.
  intros F. destruct (distanceM_tenths s) as (_ & T & _).
  destruct (distanceMetres_bounds s) as (_ & Qlo & Qhi).
  destruct (nearest_integer_bounds (distanceMetres s * 10)) as [Nlo Nhi].
  destruct (finishSimulation_flags c s F) as (_ & _ & _ & _ & Hh).
  exists (mkRow (currentSpeed s) (currentWeather s) (distanceM s) c),
         (nearest_integer (distanceMetres s * 10)).
  split; [exact Hh |]. simpl. split; [exact T |].
  split; [lra |]. split; [lra |]. split.
  - rewrite (finishSimulation_fresh c s F). destruct c; reflexivity.
  - apply distanceM_before_line.
Qed.

Lemma recorded_tenths_are_pixels_witness :
  hasFinished (started_run 20 8) = false /\
  Vector.x (position (carBody (started_run 20 8))) <= BRAKE_LINE_X /\
  exists r : Row,
    history_body
      (document (finishSimulation true (started_run 20 8))) = [r] /\
    row_distance r = "0.0"%string.
Proof.
  assert (F : hasFinished (started_run 20 8) = false) by closed.
  assert (H : Vector.x (position (carBody (started_run 20 8))) <= BRAKE_LINE_X)
    by closed.
  split; [exact F | split; [exact H |]].
  destruct (recorded_tenths_are_pixels true _ F) as (r & n & Hr & _ & _ & _ & _ & Z).
  exists r. split; [exact Hr | exact (Z H)].
Defined.

(** X16.  The recorded distance is monotone in the stopping position: of
    two finalizations, the one with the car farther along the road never
    records the smaller number of tenths. *)
Theorem farther_stop_longer_distance (c c' : bool) (s t : State) :
  hasFinished s = false -> hasFinished t = false ->
  Vector.x (position (carBody s)) <= Vector.x (position (carBody t)) ->
  exists (rs rt : Row) (ns nt : Z),
    history_body (document (finishSimulation c s)) = rs :: history_body (document s) /\
    history_body (document (finishSimulation c' t)) = rt :: history_body (document t) /\
    tenths_of_fixed1 (row_distance rs) = Some ns /\
    tenths_of_fixed1 (row_distance rt) = Some nt /\
    (ns <= nt)%Z.
Proof.
  intros Fs Ft H.
  destruct (finishSimulation_flags c s Fs) as (_ & _ & _ & _ & Es).
  destruct (finishSimulation_flags c' t Ft) as (_ & _ & _ & _ & Et).
  destruct (distanceM_tenths s) as (_ & Ts & _).
  destruct (distanceM_tenths t) as (_ & Tt & _).
  eexists _, _, _, _. split; [exact Es |]. split; [exact Et |].
  split; [exact Ts |]. split; [exact Tt |].
  unfold nearest_integer. apply Qfloor_resp_le.
  pose proof (distanceMetres_monotone s t H). lra.
Qed.

Lemma farther_stop_longer_distance_witness :
  hasFinished (braking_run 300 8) = false /\
  hasFinished (braking_run 412 8) = false /\
  Vector.x (position (carBody (braking_run 300 8)))
  <= Vector.x (position (carBody (braking_run 412 8))) /\
  exists (rs rt : Row) (ns nt : Z),
    history_body (document (finishSimulation false (braking_run 300 8))) = [rs] /\
    history_body (document (finishSimulation true (braking_run 412 8))) = [rt] /\
    tenths_of_fixed1 (row_distance rs) = Some ns /\
    tenths_of_fixed1 (row_distance rt) = Some nt /\ (ns <= nt)%Z.
Proof.
  assert (Fs : hasFinished (braking_run 300 8) = false) by closed.
  assert (Ft : hasFinished (braking_run 412 8) = false) by closed.
  assert (H : Vector.x (position (carBody (braking_run 300 8)))
              <= Vector.x (position (carBody (braking_run 412 8)))) by closed.
  split; [exact Fs | split; [exact Ft | split; [exact H |]]].
  destruct (farther_stop_longer_distance false true _ _ Fs Ft H)
    as (rs & rt & ns & nt & Es & Et & Ts & Tt & L).
  exists rs, rt, ns, nt.
  split; [exact Es | split; [exact Et | split; [exact Ts | split; [exact Tt | exact L]]]].
Defined.

(** ** What a reset forgets and what it keeps *)

Lemma step_run_event_setup (e : Event) (s : State) :
  run_event e = true -> setup (step e s) = setup s.
Proof.
  intros Q. destruct e as [p v | | pairs | | | sp | w | d | iw];
    try discriminate Q; simpl.
  - reflexivity.
  - apply handleUpdate_setup.
  - apply handleCollision_setup.
  - apply startSimulation_setup.
Qed.

Lemma run_events_setup (es : list Event) :
  forall s : State, forallb run_event es = true -> setup (run es s) = setup s.
Proof.
  induction es as [| e es IH]; intros s Q; simpl; [reflexivity |].
  simpl in Q. apply andb_true_iff in Q. destruct Q as [Qe Qes].
  rewrite (IH _ Qes). now apply step_run_event_setup.
Qed.

Lemma resetWorld_reads_setup (s t : State) :
  setup t = setup s ->
  carBody (resetWorld t) = carBody (resetWorld s) /\
  world (resetWorld t) = world (resetWorld s) /\
  render (resetWorld t) = render (resetWorld s).
Proof.
  unfold setup, config. intros E.
  assert (Ed : currentObstacleDistance t = currentObstacleDistance s) by congruence.
  assert (Ew : currentWeather t = currentWeather s) by congruence.
  assert (E1 : canvas_width (render t) = canvas_width (render s)) by congruence.
  assert (E2 : canvas_height (render t) = canvas_height (render s)) by congruence.
  assert (E3 : options_width (render t) = options_width (render s)) by congruence.
  assert (E4 : options_height (render t) = options_height (render s)) by congruence.
  unfold resetWorld, Render_lookAt. simpl.
  rewrite Ed, Ew, E1, E2, E3, E4. repeat split.
Qed.

(** X17.  No partial state survives a reset.  Whatever a run has done
    (start, backend steps, ticks, collisions), the reset that follows
    gives the same car, the same scene, the same camera and the same
    cleared flags as a reset of the state the run began in; it hides the
    overlay and enables the start button, and it keeps the selection and
    the history of the run. *)
Theorem reset_forgets_the_run (es : list Event) (s : State) :
  forallb run_event es = true ->
  let a := resetWorld (run es s) in
  let b := resetWorld s in
  carBody a = carBody b /\ world a = world b /\ render a = render b /\
  brakingStarted a = false /\ isRunning a = false /\
  hasCrashed a = false /\ hasFinished a = false /\
  overlay_display (document a) = display_none /\
  start_btn_disabled (document a) = false /\
  config a = config s /\
  history_body (document a) = history_body (document (run es s)).
Proof.
  intros Q a b. pose proof (run_events_setup es s Q) as E.
  destruct (resetWorld_reads_setup s (run es s) E) as (Hc & Hw & Hr).
  repeat apply conj; try assumption; try reflexivity.
  apply (f_equal fst) in E. exact E.
Qed.

Lemma reset_forgets_the_run_witness :
  forallb run_event
    [ClickStart; Integrate (on_road 300) (along 8); BeforeUpdate;
     CollisionStart [mkPair "car" "dummy"]] = true /\
  carBody
    (resetWorld
       (run [ClickStart; Integrate (on_road 300) (along 8); BeforeUpdate;
             CollisionStart [mkPair "car" "dummy"]] (init 1200)))
  = carBody (resetWorld (init 1200)).
Proof.
  assert (Q : forallb run_event
                [ClickStart; Integrate (on_road 300) (along 8); BeforeUpdate;
                 CollisionStart [mkPair "car" "dummy"]] = true) by closed.
  split; [exact Q |].
  exact (proj1 (reset_forgets_the_run _ (init 1200) Q)).
Defined.

(** X18.  A second reset changes nothing. *)
Theorem reset_is_idempotent (s : State) : resetWorld (resetWorld s) = resetWorld s.
Proof.
  destruct s as [? ? ? ? ? ? ? ? ? r ? d]. destruct r, d.
  vm_compute. reflexivity.
Qed.

(** ** The car body *)

Lemma step_car_constants (e : Event) (s : State) :
  label (carBody s) = "car"%string /\ mass (carBody s) = CAR_MASS /\
  friction (carBody s) = 0 /\ (isRunning s = true -> frictionAir (carBody s) = 0) ->
  label (carBody (step e s)) = "car"%string /\ mass (carBody (step e s)) = CAR_MASS /\
  friction (carBody (step e s)) = 0 /\
  (isRunning (step e s) = true -> frictionAir (carBody (step e s)) = 0).
Proof.
  intros (L & M & Fr & Fa).
  destruct e as [p v | | pairs | | | sp | w | d | iw]; simpl.
  - split; [exact L | split; [exact M | split; [exact Fr | exact Fa]]].
  - destruct (handleUpdate_start_btn s) as (_ & Hr).
    destruct (isRunning s) eqn:R.
    + rewrite (handleUpdate_running s R).
      destruct (check_stopped_body (control s)) as (-> & -> & -> & -> & _).
      destruct (control_body s) as (-> & -> & -> & ->).
      split; [exact L | split; [exact M | split; [exact Fr | intros _; now apply Fa]]].
    + rewrite (handleUpdate_not_running s R), R.
      split; [exact L | split; [exact M | split; [exact Fr | discriminate]]].
  - destruct (handleCollision_setup pairs s) as (_ & _ & _ & -> & _).
    destruct (handleCollision_start_btn pairs s) as (_ & Hr).
    split; [exact L | split; [exact M | split; [exact Fr | intros R; auto]]].
  - unfold startSimulation. destruct (isRunning s) eqn:R; simpl.
    + rewrite R. split; [exact L | split; [exact M | split; [exact Fr | exact Fa]]].
    + split; [exact L | split; [exact M | split; reflexivity]].
  - split; [reflexivity | split; [reflexivity | split; [reflexivity | discriminate]]].
  - unfold selectSpeed. destruct (isRunning s) eqn:R; simpl.
    + rewrite R. split; [exact L | split; [exact M | split; [exact Fr | exact Fa]]].
    + split; [reflexivity | split; [reflexivity | split; [reflexivity | discriminate]]].
  - unfold selectWeather. destruct (isRunning s) eqn:R; simpl.
    + rewrite R. split; [exact L | split; [exact M | split; [exact Fr | exact Fa]]].
    + split; [reflexivity | split; [reflexivity | split; [reflexivity | discriminate]]].
  - unfold selectDistance. destruct (isRunning s) eqn:R; simpl.
    + rewrite R. split; [exact L | split; [exact M | split; [exact Fr | exact Fa]]].
    + split; [reflexivity | split; [reflexivity | split; [reflexivity | discriminate]]].
  - split; [exact L | split; [exact M | split; [exact Fr | exact Fa]]].
Qed.

(** X19.  The script leaves deceleration to its own force law.  In every
    state reached from [init] the car is the body labelled car, of mass
    1000 and without surface friction; and while a run is active it has
    no air friction either, so that between the ticks nothing but the
    applied braking force slows it down. *)
Theorem car_has_no_friction (w : Q) (es : list Event) :
  let t := run es (init w) in
  label (carBody t) = "car"%string /\ mass (carBody t) = CAR_MASS /\
  friction (carBody t) = 0 /\
  (isRunning t = true -> frictionAir (carBody t) = 0).
Proof.
  cbv zeta.
  assert (I : forall s : State,
             label (carBody s) = "car"%string /\ mass (carBody s) = CAR_MASS /\
             friction (carBody s) = 0 /\
             (isRunning s = true -> frictionAir (carBody s) = 0) ->
             label (carBody (run es s)) = "car"%string /\
             mass (carBody (run es s)) = CAR_MASS /\
             friction (carBody (run es s)) = 0 /\
             (isRunning (run es s) = true -> frictionAir (carBody (run es s)) = 0)).
  { induction es as [| e es IH]; intros s H; simpl; [exact H |].
    apply IH. now apply step_car_constants. }
  apply I. split; [reflexivity | split; [reflexivity | split; [reflexivity |]]].
  discriminate.
Qed.

Lemma car_has_no_friction_witness :
  isRunning (braking_run 300 8) = true /\
  frictionAir (carBody (braking_run 300 8)) = 0.
Proof.
  assert (R : isRunning (braking_run 300 8) = true) by closed.
  split; [exact R |].
  destruct (car_has_no_friction 1200
              [ClickStart; Integrate (on_road 150) (along 8); BeforeUpdate;
               Integrate (on_road 300) (along 8)]) as (_ & _ & _ & H).
  exact (H R).
Defined.

(** ** Direction of travel *)

Lemma Qabs_opp_eq (v : Q) : Qabs (- v) = Qabs v.
Proof. destruct v as [n d]. unfold Qabs, Qopp. simpl. now rewrite Z.abs_opp. Qed.

(** The outcome of stop detection is a function of the flags, the counter,
    the page, the selection, the car's position and its speed. *)
Lemma check_stopped_outcome (s t : State) :
  outcome s = outcome t -> config s = config t ->
  position (carBody s) = position (carBody t) -> speed_of s = speed_of t ->
  outcome (check_stopped s) = outcome (check_stopped t).
Proof.
  unfold outcome, config, speed_of. intros O C P V.
  injection O as Er Eb Ec Ef El Ed. injection C as _ Es Ew.
  assert (D : detecting s = detecting t) by (unfold detecting; congruence).
  assert (M : distanceM s = distanceM t) by (now apply distanceM_position).
  unfold check_stopped. fold (detecting s) (detecting t). rewrite <- D, V, El.
  destruct (detecting s) eqn:G; [| simpl; congruence].
  destruct (Qlt_bool _ (3 # 10)); [| simpl; congruence].
  cbn [lowSpeedCounter set_lowSpeedCounter].
  destruct (_ || _); [| simpl; congruence].
  apply detecting_unfinished in G.
  rewrite !finishSimulation_fresh by (simpl; congruence).
  simpl.
  assert (Ms : forall u n b,
             distanceM (set_carBody (set_lowSpeedCounter u n)
                                    (Body_setVelocity b (carBody u))) = distanceM u)
    by reflexivity.
  rewrite !Ms, M, Eb, Ec, Ed, Es, Ew. reflexivity.
Qed.

(** X20.  Stop detection does not look at the direction of travel.  Two
    ticks that differ only in the sign of the car's horizontal velocity
    decide the same: same flags, same counter, same page (same history
    row, same overlay).  Only the braking force tells the directions
    apart. *)
Theorem stop_detection_ignores_direction (p : Vector.t) (vx vy : Q) (s : State) :
  outcome (tick (p, Vector.mk (- vx) vy) s) = outcome (tick (p, Vector.mk vx vy) s).
Proof.
  unfold tick. cbn [fst snd].
  set (a := integrate p (Vector.mk (- vx) vy) s).
  set (b := integrate p (Vector.mk vx vy) s).
  destruct (isRunning s) eqn:R.
  - assert (Ra : isRunning a = true) by exact R.
    assert (Rb : isRunning b = true) by exact R.
    assert (Bab : braking b = braking a) by reflexivity.
    rewrite (handleUpdate_running a Ra), (handleUpdate_running b Rb).
    destruct (control_frame a) as (A1 & A2 & A3 & A4 & A5 & A6 & A7 & A8 & A9).
    destruct (control_frame b) as (B1 & B2 & B3 & B4 & B5 & B6 & B7 & B8 & B9).
    destruct (control_setup a) as (Sa & _). destruct (control_setup b) as (Sb & _).
    assert (O : outcome (control a) = outcome (control b)).
    { unfold outcome. rewrite A1, A2, A3, A4, A5, A6, B1, B2, B3, B4, B5, B6, Bab.
      reflexivity. }
    destruct (braking a) eqn:Ba.
    + apply check_stopped_outcome.
      * exact O.
      * apply (f_equal fst) in Sa, Sb. exact (eq_trans Sa (eq_sym Sb)).
      * rewrite A9, B9. reflexivity.
      * rewrite (speed_of_control a Ba), (speed_of_control b Bab).
        unfold speed_of, Math_abs, a, b. simpl. apply Qabs_opp_eq.
    + rewrite !check_stopped_off; [exact O | |];
        unfold detecting; rewrite ?A1, ?B1, ?Bab, ?Ba; reflexivity.
  - rewrite !handleUpdate_not_running by exact R. reflexivity.
Qed.

(** The two directions at work: a car crawling backwards is stopped like
    one crawling forwards, with a different force on it. *)
Example stop_detection_ignores_direction_example :
  hasFinished (tick (on_road 300, along (- (4 # 100))) (braking_run 300 8)) = true /\
  hasFinished (tick (on_road 300, along (4 # 100)) (braking_run 300 8)) = true /\
  force (carBody (tick (on_road 300, along (- (4 # 100))) (braking_run 300 8)))
  <> force (carBody (tick (on_road 300, along (4 # 100)) (braking_run 300 8))).
Proof. repeat apply conj; closed. Qed.
